(** * Universal EDA Analyzer (Data.py): a shallow embedding and its properties

    The script is one Streamlit page, run top to bottom on every interaction.
    It parses an uploaded CSV into a pandas table [df], profiles it, splits
    its columns by dtype, draws a fixed list of charts and offers the table
    for download.

    The embedding has three layers:
    - the table and the pandas operations whose result the page reports
      (shape, duplicated, nunique, isnull, select_dtypes, head), written out
      as functions on the table;
    - the library calls whose result the script only forwards or which may
      raise (read_csv, to_csv, describe, the aggregations behind the charts,
      the chart constructors and the chart display), kept as fields of a
      record [Lib];
    - the script itself, in a state-and-exception monad: the state holds the
      Python objects the script names (a store of tables, because line 101
      assigns to an attribute of one) and the elements shown on the page. *)

From Stdlib Require Import ZArith QArith Qround Qabs Lia Lqa String Ascii.
From Stdlib Require Import SpecFloat DecimalString.
From Stdlib.Strings Require Import Byte.
From stdpp Require Import base decidable list strings.

Local Open Scope string_scope.
Local Open Scope list_scope.

(** ** Tables *)

(** The dtypes a column of [df] can have. [read_csv] infers int64, uint64,
    float64, bool or object; category and datetime64 are listed because the
    script's own filter names category and because they are the common
    dtypes that are neither textual nor numeric. *)
Inductive Dtype :=
| object_ | category | bool_ | int64 | uint64 | float64 | datetime64.

#[global] Instance Dtype_eq_dec : EqDecision Dtype.
Proof. solve_decision. Defined.

(** ** Binary64 numbers

    A float64 is a [spec_float] at precision 53 and maximal exponent 1024;
    products and quotients are the correctly rounded ones of IEEE 754. *)
Definition f64 : Type := spec_float.

#[global] Instance f64_eq_dec : EqDecision f64.
Proof. solve_decision. Defined.

(** The float of an integer, [float(z)]. *)
Definition f64_of_Z (z : Z) : f64 := binary_normalize 53 1024 z 0 false.

Definition f64_mul : f64 -> f64 -> f64 := SFmul 53 1024.

Definition f64_div : f64 -> f64 -> f64 := SFdiv 53 1024.

(** The number a finite float stands for. *)
Definition f64_to_Q (x : f64) : Q :=
  match x with
  | S754_finite s m e =>
      ((if s then inject_Z (Z.neg m) else inject_Z (Z.pos m)) * (2 # 1) ^ e)%Q
  | _ => 0%Q
  end.

(** A value of a cell. The script never computes with cell values itself,
    it has them compared, counted and tested for being missing. *)
Inductive scalar :=
| SInt (z : Z)
| SFloat (f : f64)
| SBool (b : bool)
| SStr (s : string).

#[global] Instance scalar_eq_dec : EqDecision scalar.
Proof. solve_decision. Defined.

(** A cell; [None] is the missing value of a column of objects, and the
    float NaN is missing as well. *)
Definition cell := option scalar.

(** What pandas compares when it compares two cells: a float by its value,
    so that -0.0 is 0.0, and every missing value is the same. *)
Definition cell_key (c : cell) : cell :=
  match c with
  | Some (SFloat S754_nan) => None
  | Some (SFloat (S754_zero _)) => Some (SFloat (S754_zero false))
  | _ => c
  end.

Definition row_key (r : list cell) : list cell := map cell_key r.

Record Series := mkSeries {
  name : string;
  dtype : Dtype;
  values : list cell
}.

#[global] Instance Series_eq_dec : EqDecision Series.
Proof. solve_decision. Defined.

(** A table: the length of its (range) index and its columns in order. *)
Record DataFrame := mkFrame {
  index_len : nat;
  columns : list Series
}.

#[global] Instance DataFrame_eq_dec : EqDecision DataFrame.
Proof. solve_decision. Defined.

(** Every column has one value per index entry. *)
Definition wf_frame (d : DataFrame) : Prop :=
  Forall (fun c => length (values c) = index_len d) (columns d).

(** [df.columns] *)
Definition column_names (d : DataFrame) : list string := map name (columns d).

(** [df.shape] *)
Definition shape (d : DataFrame) : nat * nat :=
  (index_len d, length (columns d)).

(** The rows of a table, as the index runs. *)
Definition row (d : DataFrame) (i : nat) : list cell :=
  map (fun c => default None (values c !! i)) (columns d).

Definition rows (d : DataFrame) : list (list cell) :=
  map (row d) (seq 0 (index_len d)).

(** [Series.sum()] of a boolean series. *)
Definition sum_bools (l : list bool) : nat :=
  length (filter (fun b => b = true) l).

(** [df.duplicated()], keep='first': a row is flagged when an equal row came
    before it; cells are compared as pandas compares them ([row_key]). *)
Fixpoint duplicated_from (seen : list (list cell)) (rs : list (list cell))
  : list bool :=
  match rs with
  | [] => []
  | r :: rs' => bool_decide (r ∈ seen) :: duplicated_from (r :: seen) rs'
  end.

Definition duplicated (d : DataFrame) : list bool :=
  duplicated_from [] (map row_key (rows d)).

(** [df.head()], n = 5 *)
Definition head (d : DataFrame) : DataFrame :=
  mkFrame (Nat.min 5 (index_len d))
          (map (fun c => mkSeries (name c) (dtype c) (take 5 (values c)))
               (columns d)).

(** [df.isnull()] on one column, and [Series.nunique()]: the number of
    different values, compared as pandas compares them, missing values not
    counted. *)
Definition is_null (c : cell) : bool :=
  match c with
  | None | Some (SFloat S754_nan) => true
  | Some _ => false
  end.

Definition isnull (s : Series) : list bool := map is_null (values s).

Definition nunique (s : Series) : nat :=
  length (remove_dups (omap cell_key (values s))).

(** [df.select_dtypes(include=["object", "category"])] and
    [df.select_dtypes(include=np.number)]: bool and datetime64 are in
    neither selection. *)
Definition is_object_or_category (t : Dtype) : bool :=
  match t with object_ | category => true | _ => false end.

Definition is_number (t : Dtype) : bool :=
  match t with int64 | uint64 | float64 => true | _ => false end.

Definition select_dtypes (include : Dtype -> bool) (d : DataFrame) : DataFrame :=
  mkFrame (index_len d) (filter (fun c => include (dtype c) = true) (columns d)).

Definition categorical_cols (df : DataFrame) : list string :=
  column_names (select_dtypes is_object_or_category df).

Definition numeric_cols (df : DataFrame) : list string :=
  column_names (select_dtypes is_number df).

(** [df[cols]] for a list of column names. *)
Definition getitem_cols (d : DataFrame) (cols : list string) : DataFrame :=
  mkFrame (index_len d)
          (flat_map (fun n => filter (fun c => name c = n) (columns d)) cols).

(** ** The missing-value figures

    All in float64, as the code computes them: [mean] of a boolean series is
    the float of the number of [True] divided by the float of its length
    (NaN for an empty series), and [round(2)] is numpy's: multiply by 100.0,
    round to the nearest integer with ties to even, divide by 100.0. *)

(** The nearest integer of a rational, ties to even. *)
Definition rint (q : Q) : Z :=
  let f := Qfloor q in
  match Qcompare (q - inject_Z f)%Q (1 # 2)%Q with
  | Lt => f
  | Gt => (f + 1)%Z
  | Eq => if Z.even f then f else (f + 1)%Z
  end.

(** [np.rint]: exact on the number the float stands for; a result of zero
    keeps the sign. *)
Definition f64_rint (x : f64) : f64 :=
  match x with
  | S754_finite s _ _ =>
      let z := rint (f64_to_Q x) in
      if Z.eqb z 0 then S754_zero s else f64_of_Z z
  | _ => x
  end.

(** [x.round(2)] *)
Definition f64_round2 (x : f64) : f64 :=
  f64_div (f64_rint (f64_mul x (f64_of_Z 100))) (f64_of_Z 100).

Definition mean_bools (l : list bool) : f64 :=
  f64_div (f64_of_Z (Z.of_nat (sum_bools l))) (f64_of_Z (Z.of_nat (length l))).

Definition missing_count (s : Series) : nat := sum_bools (isnull s).

Definition missing_pct (s : Series) : f64 :=
  f64_round2 (f64_mul (mean_bools (isnull s)) (f64_of_Z 100)).

(** The rows of [missing_df] and of [dtype_df]. *)
Definition missing_df (df : DataFrame) : list (string * nat * f64) :=
  map (fun c => (name c, missing_count c, missing_pct c)) (columns df).

Definition dtype_df (df : DataFrame) : list (string * Dtype * nat) :=
  map (fun c => (name c, dtype c, nunique c)) (columns df).

(** ** Charts and page elements *)

(** A chart object, identified with the call that builds it.
    [Bar]: [px.bar] (the grouped bars are coloured by [color] on the "Blues"
    scale); [Pie]: [px.pie], a donut when [hole] is given; [Heatmap]:
    [sns.heatmap(corr, annot=True, cmap="coolwarm")]. *)
Inductive Fig :=
| Histogram (data : DataFrame) (x title : string)
| Bar (data : DataFrame) (x y : string) (horizontal : bool) (title : string)
      (labels : list (string * string)) (color : option string)
| Pie (data : DataFrame) (names vals title : string) (hole : option Q)
| Box (data : DataFrame) (y title : string)
| Heatmap (corr : DataFrame).

(** What the page shows, one constructor per Streamlit call of the script. *)
Inductive Event :=
| PageConfig (page_title layout : string)
| Title (s : string)
| Markdown (s : string)
| FileUploader (label : string) (types : list string)
| Success (s : string)
| Subheader (s : string)
| Dataframe (d : DataFrame)
| DtypeTable (t : list (string * Dtype * nat))
| MissingTable (t : list (string * nat * f64))
| Columns (n : nat)
| Metric (label : string) (value : nat)
| Write (s : string)
| WriteList (l : list string)
| Info (s : string)
| Warning (s : string)
| Error (s : string)
| Selectbox (label : string) (options : list string) (key : option string)
| PlotlyChart (f : Fig)
| Pyplot (f : Fig)
| DownloadButton (label : string) (data : list byte) (file_name mime : string).

(** ** The library *)

(** An exception, carried by its message [str(e)]. *)
Definition Exn := string.

Inductive Result (A : Type) :=
| Ok (a : A)
| Raise (e : Exn).
Arguments Ok {A} a.
Arguments Raise {A} e.

(** The pandas, plotly, seaborn and Streamlit calls that the script does not
    look into.
    - [read_csv]: the parsed table, or the parser's exception;
    - [to_csv]: [df.to_csv(index=False)], a text;
    - [describe]: [DataFrame.describe()];
    - [value_counts d c]: [d[c].value_counts().reset_index()];
    - [groupby_sum d x y]: [d.groupby(x)[y].sum().reset_index()];
    - [corr]: [DataFrame.corr()];
    - [build f]: the exception, if any, raised by the constructor of chart
      [f] ([px.histogram], [px.bar], [px.pie], [px.box], [sns.heatmap]);
    - [display f]: the exception, if any, raised by [st.plotly_chart] or
      [st.pyplot] on [f].
    None of them changes a table it is given. *)
Record Lib := mkLib {
  read_csv : list byte -> Result DataFrame;
  to_csv : DataFrame -> string;
  describe : DataFrame -> DataFrame;
  value_counts : DataFrame -> string -> Result DataFrame;
  groupby_sum : DataFrame -> string -> string -> Result DataFrame;
  corr : DataFrame -> Result DataFrame;
  build : Fig -> option Exn;
  display : Fig -> option Exn
}.

(** ** The script's monad *)

(** The tables the script has bound to a name, by reference, and the page so
    far. *)
Record State := mkState {
  heap : list DataFrame;
  out : list Event
}.

Definition M (A : Type) : Type := State -> Result A * State.

#[global] Instance M_ret : MRet M := fun A a s => (Ok a, s).

#[global] Instance M_bind : MBind M := fun A B f m s =>
  match m s with
  | (Ok a, s') => f a s'
  | (Raise e, s') => (Raise e, s')
  end.

Definition lift {A : Type} (r : Result A) : M A := fun s => (r, s).

Definition emit (e : Event) : M unit :=
  fun s => (Ok tt, mkState (heap s) (out s ++ [e])).

(** A new table object. *)
Definition alloc (d : DataFrame) : M nat :=
  fun s => (Ok (length (heap s)), mkState (heap s ++ [d]) (out s)).

(** Reading a name. *)
Definition get (r : nat) : M DataFrame :=
  fun s => match heap s !! r with
           | Some d => (Ok d, s)
           | None => (Raise "NameError", s)
           end.

(** The text of the exception pandas raises when an axis of [expected]
    labels is assigned [given] labels. *)
Definition show_nat (n : nat) : string := NilEmpty.string_of_uint (Nat.to_uint n).

Definition length_mismatch (expected given : nat) : Exn :=
  ("Length mismatch: Expected axis has " ++ show_nat expected
   ++ " elements, new values have " ++ show_nat given ++ " elements")%string.

(** [d.columns = names]: renames the columns of the object in place; pandas
    raises when the lengths differ. *)
Definition rename (d : DataFrame) (names : list string) : DataFrame :=
  mkFrame (index_len d)
          (zip_with (fun n c => mkSeries n (dtype c) (values c)) names (columns d)).

Definition set_columns (r : nat) (names : list string) : M unit :=
  fun s => match heap s !! r with
           | Some d =>
               if decide (length names = length (columns d))
               then (Ok tt, mkState (<[r := rename d names]> (heap s)) (out s))
               else (Raise (length_mismatch (length (columns d)) (length names)), s)
           | None => (Raise "NameError", s)
           end.

(** [try: body except Exception as e: handler e] *)
Definition try_except (body : M unit) (handler : Exn -> M unit) : M unit :=
  fun s => match body s with
           | (Raise e, s') => handler e s'
           | r => r
           end.

(** ** Widgets *)

(** The state of the page's select boxes: the position chosen in each. *)
Record Widgets := mkWidgets {
  w_num_col : nat;
  w_cat_col : nat;
  w_bar_x : nat;
  w_bar_y : nat;
  w_bar_type : nat;
  w_pie_cat : nat;
  w_pie_num : nat;
  w_pie_type : nat;
  w_count_pie_cat : nat;
  w_out_col : nat
}.

(** [st.selectbox]: shows the box and returns the chosen option, the first
    one when nothing valid is chosen. *)
Definition selectbox (label : string) (options : list string)
    (key : option string) (choice : nat) : M string :=
  _ ← emit (Selectbox label options key);
  mret (default (hd "" options) (options !! choice)).

Definition px (lib : Lib) (f : Fig) : M Fig :=
  match build lib f with
  | Some e => lift (Raise e)
  | None => mret f
  end.

Definition plotly_chart (lib : Lib) (f : Fig) : M unit :=
  match display lib f with
  | Some e => lift (Raise e)
  | None => emit (PlotlyChart f)
  end.

Definition pyplot (lib : Lib) (f : Fig) : M unit :=
  match display lib f with
  | Some e => lift (Raise e)
  | None => emit (Pyplot f)
  end.

(** Python's truth value of a list. *)
Definition truthy {A : Type} (l : list A) : bool :=
  match l with [] => false | _ :: _ => true end.

(** ** The script, section by section *)

Section Script.

Variable lib : Lib.
Variable w : Widgets.

(** Lines 11-22. *)
Definition page_header : M unit :=
  _ ← emit (PageConfig "Universal EDA Analyzer" "wide");
  _ ← emit (Title "📊 Universal Data Analyzer using EDA");
  _ ← emit (Markdown "Upload **any CSV dataset** to perform complete Exploratory Data Analysis");
  emit (FileUploader "Upload CSV File" ["csv"]).

(** Lines 25-26: the parse is not inside any [try]. *)
Definition load (uploaded_file : list byte) : M nat :=
  parsed ← lift (read_csv lib uploaded_file);
  df ← alloc parsed;
  _ ← emit (Success "✅ Dataset Loaded Successfully");
  mret df.

(** Lines 31-32. *)
Definition dataset_preview (df : nat) : M unit :=
  _ ← emit (Subheader "🔍 Dataset Preview");
  d ← get df;
  emit (Dataframe (head d)).

(** Lines 37-42. *)
Definition dataset_info (df : nat) : M unit :=
  _ ← emit (Subheader "📌 Dataset Information");
  _ ← emit (Columns 3);
  d ← get df;
  _ ← emit (Metric "Rows" (shape d).1);
  d ← get df;
  _ ← emit (Metric "Columns" (shape d).2);
  d ← get df;
  emit (Metric "Duplicate Rows" (sum_bools (duplicated d))).

(** Lines 47-53. *)
Definition data_types (df : nat) : M unit :=
  _ ← emit (Subheader "🧠 Column Data Types");
  d ← get df;
  emit (DtypeTable (dtype_df d)).

(** Lines 58-66: the two lists are computed once and kept. *)
Definition classification (df : nat) : M (list string * list string) :=
  d ← get df;
  let categorical_cols := categorical_cols d in
  d ← get df;
  let numeric_cols := numeric_cols d in
  _ ← emit (Subheader "🔎 Column Classification");
  _ ← emit (Columns 2);
  _ ← emit (Write "**Categorical Columns**");
  _ ← emit (WriteList categorical_cols);
  _ ← emit (Write "**Numerical Columns**");
  _ ← emit (WriteList numeric_cols);
  mret (categorical_cols, numeric_cols).

(** Lines 71-77. *)
Definition missing_values (df : nat) : M unit :=
  _ ← emit (Subheader "❌ Missing Value Analysis");
  d ← get df;
  emit (MissingTable (missing_df d)).

(** Lines 82-86. *)
Definition statistics (df : nat) (numeric_cols : list string) : M unit :=
  _ ← emit (Subheader "📈 Descriptive Statistics");
  if truthy numeric_cols then
    d ← get df;
    emit (Dataframe (describe lib (getitem_cols d numeric_cols)))
  else
    emit (Info "No numeric columns found").

(** Lines 93-96: the histogram; no [try]. *)
Definition histogram (df : nat) (numeric_cols : list string) : M unit :=
  if truthy numeric_cols then
    num_col ← selectbox "Select Numeric Column" numeric_cols None (w_num_col w);
    d ← get df;
    fig ← px lib (Histogram d num_col ("Distribution of " ++ num_col));
    plotly_chart lib fig
  else mret tt.

(** Lines 98-105: the value-count bar; no [try]. Line 101 assigns to the
    columns of [cat_data]. *)
Definition value_count_bar (df : nat) (categorical_cols : list string) : M unit :=
  if truthy categorical_cols then
    cat_col ← selectbox "Select Categorical Column" categorical_cols None (w_cat_col w);
    d ← get df;
    counts ← lift (value_counts lib d cat_col);
    cat_data ← alloc counts;
    _ ← set_columns cat_data [cat_col; "Count"];
    c ← get cat_data;
    fig ← px lib (Bar c cat_col "Count" false ("Value Counts of " ++ cat_col)
                      [(cat_col, cat_col); ("Count", "Count")] None);
    plotly_chart lib fig
  else mret tt.

(** Lines 91-105. *)
Definition univariate (df : nat) (categorical_cols numeric_cols : list string)
  : M unit :=
  _ ← emit (Subheader "📊 Univariate Analysis");
  _ ← histogram df numeric_cols;
  value_count_bar df categorical_cols.

(** Lines 113-139, the body of the first [try]. *)
Definition dynamic_bar_body (df : nat) (categorical_cols numeric_cols : list string)
  : M unit :=
  if Nat.ltb 0 (length categorical_cols) && Nat.ltb 0 (length numeric_cols) then
    _ ← emit (Columns 3);
    x_col ← selectbox "X-axis (Categorical)" categorical_cols (Some "bar_x") (w_bar_x w);
    y_col ← selectbox "Y-axis (Numeric)" numeric_cols (Some "bar_y") (w_bar_y w);
    chart_type ← selectbox "Chart Type" ["Vertical Bar"; "Horizontal Bar"]
                   (Some "bar_type") (w_bar_type w);
    d ← get df;
    sums ← lift (groupby_sum lib d x_col y_col);
    bar_data ← alloc sums;
    b ← get bar_data;
    fig ← (if bool_decide (chart_type = "Vertical Bar") then
             px lib (Bar b x_col y_col false (y_col ++ " by " ++ x_col)
                         [(x_col, x_col); (y_col, y_col)] (Some y_col))
           else
             px lib (Bar b y_col x_col true (y_col ++ " by " ++ x_col)
                         [] (Some y_col)));
    plotly_chart lib fig
  else
    emit (Warning "⚠️ Need both categorical and numeric columns for bar chart").

(** Lines 110-141. *)
Definition dynamic_bar (df : nat) (categorical_cols numeric_cols : list string)
  : M unit :=
  _ ← emit (Subheader "📊 Dynamic Bar Chart");
  try_except (dynamic_bar_body df categorical_cols numeric_cols)
             (fun e => emit (Error ("Error creating bar chart: " ++ e))).

(** Lines 149-170, the body of the second [try]. *)
Definition dynamic_pie_body (df : nat) (categorical_cols numeric_cols : list string)
  : M unit :=
  if Nat.ltb 0 (length categorical_cols) && Nat.ltb 0 (length numeric_cols) then
    _ ← emit (Columns 3);
    pie_cat ← selectbox "Category" categorical_cols (Some "pie_cat") (w_pie_cat w);
    pie_num ← selectbox "Value" numeric_cols (Some "pie_num") (w_pie_num w);
    pie_chart_type ← selectbox "Chart Type" ["Pie Chart"; "Donut Chart"]
                       (Some "pie_type") (w_pie_type w);
    d ← get df;
    sums ← lift (groupby_sum lib d pie_cat pie_num);
    pie_data ← alloc sums;
    p ← get pie_data;
    fig ← (if bool_decide (pie_chart_type = "Pie Chart") then
             px lib (Pie p pie_cat pie_num
                         (pie_num ++ " Distribution by " ++ pie_cat) None)
           else
             px lib (Pie p pie_cat pie_num
                         (pie_num ++ " Distribution by " ++ pie_cat ++ " (Donut)")
                         (Some (4 # 10)%Q)));
    plotly_chart lib fig
  else
    emit (Warning "⚠️ Need both categorical and numeric columns for pie chart").

(** Lines 146-172. *)
Definition dynamic_pie (df : nat) (categorical_cols numeric_cols : list string)
  : M unit :=
  _ ← emit (Subheader "🥧 Dynamic Pie Chart");
  try_except (dynamic_pie_body df categorical_cols numeric_cols)
             (fun e => emit (Error ("Error creating pie chart: " ++ e))).

(** Lines 180-189, the body of the third [try]. *)
Definition count_pie_body (df : nat) (categorical_cols : list string) : M unit :=
  if Nat.ltb 0 (length categorical_cols) then
    count_cat ← selectbox "Select Category to Visualize" categorical_cols
                  (Some "count_pie_cat") (w_count_pie_cat w);
    d ← get df;
    counts ← lift (value_counts lib d count_cat);
    count_data ← alloc counts;
    _ ← set_columns count_data [count_cat; "Count"];
    c ← get count_data;
    fig ← px lib (Pie c count_cat "Count"
                      ("Count Distribution of " ++ count_cat) None);
    plotly_chart lib fig
  else
    emit (Warning "⚠️ No categorical columns available for distribution chart").

(** Lines 177-191. *)
Definition count_pie (df : nat) (categorical_cols : list string) : M unit :=
  _ ← emit (Subheader "🥧 Category Distribution Pie Chart");
  try_except (count_pie_body df categorical_cols)
             (fun e => emit (Error ("Error creating distribution chart: " ++ e))).

(** Lines 196-204: the heatmap; no [try]. *)
Definition heatmap (df : nat) (numeric_cols : list string) : M unit :=
  _ ← emit (Subheader "🔥 Correlation Heatmap");
  if Nat.ltb 1 (length numeric_cols) then
    d ← get df;
    c ← lift (corr lib (getitem_cols d numeric_cols));
    corr ← alloc c;
    c ← get corr;
    fig ← px lib (Heatmap c);
    pyplot lib fig
  else
    emit (Info "Not enough numeric columns for correlation").

(** Lines 209-214: the boxplot; no [try]. *)
Definition outlier (df : nat) (numeric_cols : list string) : M unit :=
  _ ← emit (Subheader "🚨 Outlier Detection");
  if truthy numeric_cols then
    out_col ← selectbox "Select Column for Outlier Analysis" numeric_cols None
                (w_out_col w);
    d ← get df;
    fig ← px lib (Box d out_col ("Outliers in " ++ out_col));
    plotly_chart lib fig
  else mret tt.

(** Lines 219-226. *)
Definition download (df : nat) : M unit :=
  _ ← emit (Subheader "⬇️ Download Dataset");
  d ← get df;
  let csv := list_byte_of_string (to_csv lib d) in
  emit (DownloadButton "Download CSV" csv "cleaned_dataset.csv" "text/csv").

(** The charts and the export, lines 82-226. *)
Definition charts (df : nat) (categorical_cols numeric_cols : list string)
  : M unit :=
  _ ← statistics df numeric_cols;
  _ ← univariate df categorical_cols numeric_cols;
  _ ← dynamic_bar df categorical_cols numeric_cols;
  _ ← dynamic_pie df categorical_cols numeric_cols;
  _ ← count_pie df categorical_cols;
  _ ← heatmap df numeric_cols;
  _ ← outlier df numeric_cols;
  download df.

(** Lines 25-77. *)
Definition profile (df : nat) : M (list string * list string) :=
  _ ← dataset_preview df;
  _ ← dataset_info df;
  _ ← data_types df;
  cols ← classification df;
  _ ← missing_values df;
  mret cols.

(** The whole script. *)
Definition script (uploaded_file : option (list byte)) : M unit :=
  _ ← page_header;
  match uploaded_file with
  | Some file =>
      df ← load file;
      cols ← profile df;
      charts df cols.1 cols.2
  | None => emit (Info "👆 Upload a CSV file to start EDA")
  end.

End Script.

(** One render pass, from an empty page and an empty store. *)
Definition run (lib : Lib) (uploaded_file : option (list byte)) (w : Widgets)
  : Result unit * State :=
  script lib w uploaded_file (mkState [] []).

(** The page once the table is loaded and profiled (lines 11-77). *)
Definition loaded_page (df : DataFrame) : list Event :=
  [ PageConfig "Universal EDA Analyzer" "wide";
    Title "📊 Universal Data Analyzer using EDA";
    Markdown "Upload **any CSV dataset** to perform complete Exploratory Data Analysis";
    FileUploader "Upload CSV File" ["csv"];
    Success "✅ Dataset Loaded Successfully";
    Subheader "🔍 Dataset Preview";
    Dataframe (head df);
    Subheader "📌 Dataset Information";
    Columns 3;
    Metric "Rows" (shape df).1;
    Metric "Columns" (shape df).2;
    Metric "Duplicate Rows" (sum_bools (duplicated df));
    Subheader "🧠 Column Data Types";
    DtypeTable (dtype_df df);
    Subheader "🔎 Column Classification";
    Columns 2;
    Write "**Categorical Columns**";
    WriteList (categorical_cols df);
    Write "**Numerical Columns**";
    WriteList (numeric_cols df);
    Subheader "❌ Missing Value Analysis";
    MissingTable (missing_df df) ].

(** ** Kinds of page elements *)

(** The figures and tables of the profiling stage. *)
Definition is_profile (e : Event) : Prop :=
  match e with
  | Metric _ _ | DtypeTable _ | MissingTable _ | WriteList _ => True
  | _ => False
  end.


Definition is_error (e : Event) : Prop :=
  match e with Error _ => True | _ => False end.

Definition is_warning (e : Event) : Prop :=
  match e with Warning _ => True | _ => False end.

(** A bar or pie chart fed by a categorical column: every [Bar] and [Pie]
    the script builds. *)
Definition is_category_chart (e : Event) : Prop :=
  match e with
  | PlotlyChart (Bar _ _ _ _ _ _ _) | PlotlyChart (Pie _ _ _ _ _) => True
  | _ => False
  end.

(** The number of missing entries of a column, counted directly. *)
Definition null_entries (c : Series) : nat :=
  length (filter (fun v => cell_key v = None) (values c)).

(** The claim's reading of the missing percentage, in exact arithmetic:
    (missing / rows) x 100, rounded to the nearest hundredth (ties to
    even), shown as the float nearest to that hundredth. *)
Definition exact_pct (missing n : nat) : Q :=
  (inject_Z (Z.of_nat missing) / inject_Z (Z.of_nat n) * 100)%Q.

Definition exact_round2 (q : Q) : Q := (inject_Z (rint (q * 100)) / 100)%Q.

Definition f64_of_hundredths (k : Z) : f64 := f64_div (f64_of_Z k) (f64_of_Z 100).

Definition claimed_pct (missing n : nat) : f64 :=
  f64_of_hundredths (rint (exact_pct missing n * 100)).

(** [r] is [x] rounded to two decimal places: a whole number of hundredths,
    none nearer to [x]. *)
Definition rounded_to_2 (x r : Q) : Prop :=
  (exists k : Z, r == inject_Z k / 100)%Q /\ (Qabs (r - x) <= 1 # 200)%Q.

(** ** Sample data *)

Definition f64_one : f64 := S754_finite false 4503599627370496 (-52).

Definition f64_one_and_half : f64 := S754_finite false 6755399441055744 (-52).

(** Three sales; the third repeats the first, one price is missing. *)
Definition sales : DataFrame :=
  mkFrame 3
    [ mkSeries "region" object_
        [Some (SStr "N"); Some (SStr "S"); Some (SStr "N")];
      mkSeries "amount" int64
        [Some (SInt 1); Some (SInt 2); Some (SInt 1)];
      mkSeries "price" float64
        [Some (SFloat f64_one_and_half); Some (SFloat S754_nan);
         Some (SFloat f64_one_and_half)] ].

(** Numbers only. *)
Definition readings : DataFrame :=
  mkFrame 2
    [ mkSeries "t" int64 [Some (SInt 0); Some (SInt 1)];
      mkSeries "v" float64 [Some (SFloat f64_one); Some (SFloat S754_nan)] ].

(** A column of booleans, as [read_csv] types a column of True/False. *)
Definition flags : DataFrame :=
  mkFrame 2
    [ mkSeries "id" int64 [Some (SInt 1); Some (SInt 2)];
      mkSeries "active" bool_ [Some (SBool true); Some (SBool false)] ].

(** A text column that is itself called "count". *)
Definition tally : DataFrame :=
  mkFrame 2
    [ mkSeries "region" object_ [Some (SStr "N"); Some (SStr "S")];
      mkSeries "count" object_ [Some (SStr "few"); Some (SStr "many")];
      mkSeries "n" int64 [Some (SInt 1); Some (SInt 2)] ].


(** The upload 0.0 then -0.0. *)
Definition zeros : DataFrame :=
  mkFrame 2
    [ mkSeries "x" float64
        [Some (SFloat (S754_zero false)); Some (SFloat (S754_zero true))] ].

(** 160 rows of which 23 are missing. *)
Definition gaps : Series :=
  mkSeries "x" float64
    (repeat (Some (SFloat S754_nan)) 23 ++ repeat (Some (SFloat f64_one)) 137).

(** A library for the examples. It parses every non-empty upload as [t] and
    rejects the empty file as pandas does; its aggregates have the right
    columns and no rows; [reset_index] after [value_counts] raises on a
    column called "count", as pandas 2 does; charts never fail. *)
Definition sample_lib (t : DataFrame) : Lib :=
  mkLib
    (fun file => match file with
                 | [] => Raise "No columns to parse from file"
                 | _ :: _ => Ok t
                 end)
    (fun d => String.concat "," (column_names d))
    (fun d => d)
    (fun d c => if decide (c = "count")
                then Raise "cannot insert count, already exists"
                else Ok (mkFrame 0 [mkSeries c object_ []; mkSeries "count" int64 []]))
    (fun d x y => Ok (mkFrame 0 [mkSeries x object_ []; mkSeries y float64 []]))
    (fun d => Ok d)
    (fun _ => None)
    (fun _ => None).

Definition some_file : list byte := list_byte_of_string "a,b".

Definition first_choices : Widgets := mkWidgets 0 0 0 0 0 0 0 0 0 0.

(** ** Further notions *)

(** The columns that neither list of the classification holds. *)
Definition unclassified_cols (df : DataFrame) : list string :=
  column_names
    (select_dtypes
       (fun t => negb (is_object_or_category t) && negb (is_number t)) df).

(** A computation run on a store whose first object is [d0]: it leaves that
    object alone, adds to the page only elements satisfying [P], and its
    result satisfies [Q]. *)
Definition spec {A : Type} (d0 : DataFrame) (P : Event -> Prop) (m : M A)
    (Q : Result A -> Prop) : Prop :=
  forall s, heap s !! 0 = Some d0 ->
    heap (m s).2 !! 0 = Some d0 /\
    (exists tr, out (m s).2 = out s ++ tr /\ Forall P tr) /\
    Q (m s).1.

(** What [st.selectbox] returns for a given position. *)
Definition chosen (options : list string) (choice : nat) : string :=
  default (hd "" options) (options !! choice).

(** The titles of the sections on a page, in order. *)
Definition titles (page : list Event) : list string :=
  omap (fun e => match e with Subheader t => Some t | _ => None end) page.

(** Where a chart on the page comes from. With [cat] and [num] the two
    column lists of the table [df] as parsed:
    - a histogram or a boxplot is drawn from [df] itself over a numeric
      column;
    - a bar chart without colour is the value-count bar: over the renamed
      value counts of a categorical column of [df];
    - a coloured bar chart is the grouped one: over the sums of a numeric
      column of [df] by a categorical one, the axes swapped when horizontal;
    - a pie is over such sums, or over renamed value counts;
    - [st.pyplot] only ever shows the heatmap of the correlation of the
      numeric columns of [df], and only when there are at least two. *)
Definition chart_ok (lib : Lib) (df : DataFrame) (e : Event) : Prop :=
  let cat := categorical_cols df in
  let num := numeric_cols df in
  match e with
  | PlotlyChart (Histogram d x t) =>
      d = df /\ x ∈ num /\ t = ("Distribution of " ++ x)%string
  | PlotlyChart (Box d y t) =>
      d = df /\ y ∈ num /\ t = ("Outliers in " ++ y)%string
  | PlotlyChart (Bar data x y h _ _ None) =>
      x ∈ cat /\ y = "Count" /\ h = false /\
      exists t, value_counts lib df x = Ok t /\ length (columns t) = 2 /\
                data = rename t [x; "Count"]
  | PlotlyChart (Bar data x y h _ _ (Some c)) =>
      exists xc yc, xc ∈ cat /\ yc ∈ num /\ c = yc /\
                    groupby_sum lib df xc yc = Ok data /\
                    (x, y) = if h then (yc, xc) else (xc, yc)
  | PlotlyChart (Pie data names vals _ hole) =>
      names ∈ cat /\
      ((vals ∈ num /\ groupby_sum lib df names vals = Ok data) \/
       (vals = "Count" /\ hole = None /\
        exists t, value_counts lib df names = Ok t /\ length (columns t) = 2 /\
                  data = rename t [names; "Count"]))
  | PlotlyChart (Heatmap _) => False
  | Pyplot (Heatmap c) =>
      2 <= length num /\ corr lib (getitem_cols df num) = Ok c
  | Pyplot _ => False
  | _ => True
  end.

(** Page elements that are not a section title, and the download button. *)
Definition no_title (e : Event) : Prop :=
  match e with Subheader _ => False | _ => True end.

Definition is_download (e : Event) : Prop :=
  match e with DownloadButton _ _ _ _ => True | _ => False end.

(** The sections of the script after the parse, in source order, each with
    its title and whether it has statements outside any [try] that call
    into the chart libraries. *)
Definition profile_titles : list string :=
  [ "🔍 Dataset Preview"; "📌 Dataset Information"; "🧠 Column Data Types";
    "🔎 Column Classification"; "❌ Missing Value Analysis" ].

Definition chart_sections : list (string * bool) :=
  [ ("📈 Descriptive Statistics", false);
    ("📊 Univariate Analysis", true);
    ("📊 Dynamic Bar Chart", false);
    ("🥧 Dynamic Pie Chart", false);
    ("🥧 Category Distribution Pie Chart", false);
    ("🔥 Correlation Heatmap", true);
    ("🚨 Outlier Detection", true);
    ("⬇️ Download Dataset", false) ].

Definition section_titles : list string :=
  profile_titles ++ map fst chart_sections.

(** A run of sections [L] from a store whose first object is [d0]: that
    object is left alone; when the run completes the titles shown are those
    of [L]; when it raises they stop at a section marked [true]. *)
Definition run_spec (d0 : DataFrame) (L : list (string * bool)) (m : M unit)
  : Prop :=
  forall s, heap s !! 0 = Some d0 ->
    heap (m s).2 !! 0 = Some d0 /\
    exists tr, out (m s).2 = out s ++ tr /\
      match (m s).1 with
      | Ok _ => titles tr = map fst L
      | Raise _ =>
          exists L1 t L2, L = L1 ++ (t, true) :: L2 /\
                          titles tr = map fst L1 ++ [t]
      end.

(** An element satisfying [P] that is on the page after [m] was there
    before, or [m] completed. *)
Definition only_when_ok {A : Type} (P : Event -> Prop) (m : M A) : Prop :=
  forall s e, e ∈ out (m s).2 -> P e ->
    e ∈ out s \/ exists a, (m s).1 = Ok a.

(** No call that a render pass over the parsed table [df] can make into the
    library raises: the value counts of a text column of [df], which come as
    two columns; the grouped sum of a numeric column of [df] by a text
    column of [df]; the correlation of the numeric columns of [df] when
    there are at least two; and building and displaying a figure that the
    script draws from [df]. Nothing is asked of the library on any other
    table, column or figure. *)
Definition no_call_fails (lib : Lib) (df : DataFrame) : Prop :=
  (forall c, c ∈ categorical_cols df ->
     exists t, value_counts lib df c = Ok t /\ length (columns t) = 2) /\
  (forall x y, x ∈ categorical_cols df -> y ∈ numeric_cols df ->
     exists t, groupby_sum lib df x y = Ok t) /\
  (2 <= length (numeric_cols df) ->
     exists t, corr lib (getitem_cols df (numeric_cols df)) = Ok t) /\
  (forall f, chart_ok lib df (PlotlyChart f) \/ chart_ok lib df (Pyplot f) ->
     build lib f = None /\ display lib f = None).

(** The exceptions that come out of the library on the table [df], and the
    one the script's own column assignment raises when value counts do not
    come as two columns. *)
Definition raised_by (lib : Lib) (df : DataFrame) (e : Exn) : Prop :=
  (exists c, value_counts lib df c = Raise e) \/
  (exists c t, value_counts lib df c = Ok t /\ length (columns t) <> 2 /\
               e = length_mismatch (length (columns t)) 2) \/
  (exists x y, groupby_sum lib df x y = Raise e) \/
  corr lib (getitem_cols df (numeric_cols df)) = Raise e \/
  (exists f, build lib f = Some e) \/
  (exists f, display lib f = Some e).

(** The three messages of the [except] clauses. *)
Definition error_prefixes : list string :=
  [ "Error creating bar chart: "; "Error creating pie chart: ";
    "Error creating distribution chart: " ].

Definition error_ok (lib : Lib) (df : DataFrame) (e : Event) : Prop :=
  match e with
  | Error msg =>
      exists prefix x, msg = (prefix ++ x)%string /\
                       prefix ∈ error_prefixes /\ raised_by lib df x
  | _ => True
  end.

(** The state once a section has shown its title. *)
Definition after_subheader (title : string) (s : State) : State :=
  mkState (heap s) (out s ++ [Subheader title]).

(** ** Specifications of computations *)

(** What a computation may add to the page: only elements satisfying [P]. *)
Definition emits_only {A : Type} (P : Event -> Prop) (m : M A) : Prop :=
  forall s, exists tr, out (m s).2 = out s ++ tr /\ Forall P tr.

(** What a computation may do to the first object of the store: nothing;
    [Q] holds of what it returns. *)
Definition keeps {A : Type} (d0 : DataFrame) (m : M A) (Q : A -> Prop) : Prop :=
  forall s, heap s !! 0 = Some d0 ->
    heap (m s).2 !! 0 = Some d0 /\ (forall a, (m s).1 = Ok a -> Q a).

(** ** Reasoning about the monad *)

Lemma bind_run {A B : Type} (m : M A) (f : A -> M B) (s : State) :
  (m ≫= f) s = match m s with
               | (Ok a, s') => f a s'
               | (Raise e, s') => (Raise e, s')
               end.
Proof. reflexivity. Qed.

Lemma bind_Ok_inv {A B : Type} (m : M A) (f : A -> M B) (s t : State) (b : B) :
  (m ≫= f) s = (Ok b, t) ->
  exists a s', m s = (Ok a, s') /\ f a s' = (Ok b, t).
Proof.
  rewrite bind_run. destruct (m s) as [[a|e] s'] eqn:E; [eauto | discriminate].
Qed.

(** *** What a computation may add to the page *)

Section EmitsOnly.

Context {A B : Type} (P : Event -> Prop).

Lemma emits_nothing (m : M A) :
  (forall s, out (m s).2 = out s) -> emits_only P m.
Proof. intros H s. exists []. rewrite H, app_nil_r. auto. Qed.

Lemma emits_ret (a : A) : emits_only P (mret a).
Proof. apply emits_nothing. reflexivity. Qed.

Lemma emits_lift (r : Result A) : emits_only P (lift r).
Proof. apply emits_nothing. reflexivity. Qed.

Lemma emits_bind (m : M A) (f : A -> M B) :
  emits_only P m -> (forall a, emits_only P (f a)) -> emits_only P (m ≫= f).
Proof.
  intros Hm Hf s. rewrite bind_run.
  destruct (Hm s) as (tr & Eo & Ht).
  destruct (m s) as [[a|e] s'] eqn:E; simpl in *.
  - destruct (Hf a s') as (tr' & Eo' & Ht').
    exists (tr ++ tr'). rewrite Eo', Eo, app_assoc. split; [done|].
    apply Forall_app; auto.
  - exists tr. auto.
Qed.

End EmitsOnly.

Section EmitsOnlyPrimitives.

Context (P : Event -> Prop).

Lemma emits_emit (e : Event) : P e -> emits_only P (emit e).
Proof. intros H s. exists [e]. simpl. auto. Qed.

Lemma emits_alloc (d : DataFrame) : emits_only P (alloc d).
Proof. apply emits_nothing. reflexivity. Qed.

Lemma emits_get (r : nat) : emits_only P (get r).
Proof. apply emits_nothing. intros s. unfold get. by destruct (heap s !! r). Qed.

Lemma emits_set_columns (r : nat) (names : list string) :
  emits_only P (set_columns r names).
Proof.
  apply emits_nothing. intros s. unfold set_columns.
  destruct (heap s !! r); [|done]. by destruct (decide _).
Qed.

Lemma emits_try (body : M unit) (handler : Exn -> M unit) :
  emits_only P body -> (forall e, emits_only P (handler e)) ->
  emits_only P (try_except body handler).
Proof.
  intros Hb Hh s. unfold try_except.
  destruct (Hb s) as (tr & Eo & Ht).
  destruct (body s) as [[[]|e] s'] eqn:E; simpl in *.
  - exists tr. auto.
  - destruct (Hh e s') as (tr' & Eo' & Ht').
    exists (tr ++ tr'). rewrite Eo', Eo, app_assoc. split; [done|].
    apply Forall_app; auto.
Qed.

Lemma emits_selectbox label options key choice :
  P (Selectbox label options key) ->
  emits_only P (selectbox label options key choice).
Proof.
  intros H. apply emits_bind; [by apply emits_emit | intros; apply emits_ret].
Qed.

Lemma emits_px (lib : Lib) (f : Fig) : emits_only P (px lib f).
Proof. unfold px. destruct (build lib f); [apply emits_lift | apply emits_ret]. Qed.

Lemma emits_plotly_chart (lib : Lib) (f : Fig) :
  P (PlotlyChart f) -> emits_only P (plotly_chart lib f).
Proof.
  intros H. unfold plotly_chart.
  destruct (display lib f); [apply emits_lift | by apply emits_emit].
Qed.

Lemma emits_pyplot (lib : Lib) (f : Fig) :
  P (Pyplot f) -> emits_only P (pyplot lib f).
Proof.
  intros H. unfold pyplot.
  destruct (display lib f); [apply emits_lift | by apply emits_emit].
Qed.

(** Building a chart and showing it: the chart shown is the one built. *)
Lemma emits_px_plotly_chart (lib : Lib) (f : Fig) :
  P (PlotlyChart f) ->
  emits_only P (px lib f ≫= fun fig => plotly_chart lib fig).
Proof.
  intros H s. rewrite bind_run. unfold px.
  destruct (build lib f); [exists []; rewrite app_nil_r; by auto|].
  by apply emits_plotly_chart.
Qed.

End EmitsOnlyPrimitives.

(** Walks through a computation built from the operations above; [side]
    settles what is asked of each element shown. *)
Ltac emits_walk side :=
  repeat first
    [ apply emits_px_plotly_chart; side
    | apply emits_bind; [|intros]
    | apply emits_try; [|intros]
    | apply emits_ret
    | apply emits_lift
    | apply emits_alloc
    | apply emits_get
    | apply emits_set_columns
    | apply emits_px
    | apply emits_emit; side
    | apply emits_selectbox; side
    | apply emits_plotly_chart; side
    | apply emits_pyplot; side
    | match goal with
      | |- emits_only _ (if ?b then _ else _) => destruct b eqn:?
      | |- emits_only _ (match ?x with _ => _ end) => destruct x eqn:?
      end ].

(** *** What a computation may do to the first object of the store *)

Section Keeps.

Context (d0 : DataFrame).

Lemma keeps_pure {A : Type} (m : M A) :
  (forall s, heap (m s).2 = heap s) -> keeps d0 m (fun _ => True).
Proof. intros H s Hs. rewrite H. auto. Qed.

Lemma keeps_bind {A B : Type} (m : M A) (f : A -> M B) (Q : A -> Prop)
    (Q' : B -> Prop) :
  keeps d0 m Q -> (forall a, Q a -> keeps d0 (f a) Q') -> keeps d0 (m ≫= f) Q'.
Proof.
  intros Hm Hf s Hs. rewrite bind_run.
  destruct (Hm s Hs) as [Hh Hq].
  destruct (m s) as [[a|e] s'] eqn:E; simpl in *.
  - apply Hf; auto.
  - split; [done | discriminate].
Qed.

Lemma keeps_ret {A : Type} (a : A) : keeps d0 (mret a) (fun _ => True).
Proof. by apply keeps_pure. Qed.

Lemma keeps_lift {A : Type} (r : Result A) : keeps d0 (lift r) (fun _ => True).
Proof. by apply keeps_pure. Qed.

Lemma keeps_emit (e : Event) : keeps d0 (emit e) (fun _ => True).
Proof. by apply keeps_pure. Qed.

Lemma keeps_get (r : nat) : keeps d0 (get r) (fun _ => True).
Proof. apply keeps_pure. intros s. unfold get. by destruct (heap s !! r). Qed.

(** A new object is never the first one of a store that has one. *)
Lemma keeps_alloc (d : DataFrame) : keeps d0 (alloc d) (fun r => r <> 0).
Proof.
  intros s Hs. simpl. split.
  - by apply lookup_app_l_Some.
  - intros a [= <-]. destruct (heap s); [done | simpl; lia].
Qed.

Lemma keeps_set_columns (r : nat) (names : list string) :
  r <> 0 -> keeps d0 (set_columns r names) (fun _ => True).
Proof.
  intros Hr s Hs. unfold set_columns. split; [|done].
  destruct (heap s !! r); [|done]. destruct (decide _); [|done].
  simpl. by rewrite list_lookup_insert_ne.
Qed.

Lemma keeps_try (body : M unit) (handler : Exn -> M unit) (Q : unit -> Prop) :
  keeps d0 body Q -> (forall e, keeps d0 (handler e) (fun _ => True)) ->
  keeps d0 (try_except body handler) (fun _ => True).
Proof.
  intros Hb Hh s Hs. unfold try_except.
  destruct (Hb s Hs) as [Hk _].
  destruct (body s) as [[[]|e] s'] eqn:E; simpl in *; [done|].
  by apply Hh.
Qed.

Lemma keeps_selectbox label options key choice :
  keeps d0 (selectbox label options key choice) (fun _ => True).
Proof. by apply keeps_pure. Qed.

Lemma keeps_px (lib : Lib) (f : Fig) : keeps d0 (px lib f) (fun _ => True).
Proof. apply keeps_pure. intros s. unfold px. by destruct (build lib f). Qed.

Lemma keeps_plotly_chart (lib : Lib) (f : Fig) :
  keeps d0 (plotly_chart lib f) (fun _ => True).
Proof.
  apply keeps_pure. intros s. unfold plotly_chart. by destruct (display lib f).
Qed.

Lemma keeps_pyplot (lib : Lib) (f : Fig) :
  keeps d0 (pyplot lib f) (fun _ => True).
Proof.
  apply keeps_pure. intros s. unfold pyplot. by destruct (display lib f).
Qed.

End Keeps.

Ltac keeps_walk :=
  repeat first
    [ eapply keeps_bind; [|intros]
    | eapply keeps_try; [|intros]
    | apply keeps_ret
    | apply keeps_lift
    | apply keeps_emit
    | apply keeps_get
    | apply keeps_alloc
    | apply keeps_set_columns; assumption
    | apply keeps_selectbox
    | apply keeps_px
    | apply keeps_plotly_chart
    | apply keeps_pyplot
    | match goal with
      | |- keeps _ (if ?b then _ else _) _ => destruct b eqn:?
      | |- keeps _ (match ?x with _ => _ end) _ => destruct x eqn:?
      end ].

(** ** The page after a successful parse *)

Lemma run_loaded (lib : Lib) (file : list byte) (w : Widgets) (df : DataFrame) :
  read_csv lib file = Ok df ->
  run lib (Some file) w =
  charts lib w 0 (categorical_cols df) (numeric_cols df)
         (mkState [df] (loaded_page df)).
Proof.
  intros H. unfold run, script, load. rewrite !bind_run. simpl.
  unfold lift. rewrite !bind_run. rewrite H. reflexivity.
Qed.

(** ** The sample data, evaluated *)

Example sales_shape : shape sales = (3, 3).
Proof. reflexivity. Qed.

Example sales_duplicated : duplicated sales = [false; false; true].
Proof. reflexivity. Qed.

Example sales_classification :
  categorical_cols sales = ["region"] /\ numeric_cols sales = ["amount"; "price"].
Proof. split; reflexivity. Qed.

Example sales_missing_df :
  missing_df sales
  = [ ("region", 0, S754_zero false);
      ("amount", 0, S754_zero false);
      ("price", 1, f64_of_hundredths 3333) ].
Proof. vm_compute. reflexivity. Qed.

(** 23 missing of 160: the quotient times 100 is 14.374999999999998 and the
    percentage shown is 14.37. *)
Example gaps_missing_pct :
  missing_count gaps = 23 /\ length (values gaps) = 160 /\
  f64_mul (mean_bools (isnull gaps)) (f64_of_Z 100)
  = S754_finite false 8092405580431359 (-49) /\
  missing_pct gaps = f64_of_hundredths 1437.
Proof. vm_compute. repeat split; reflexivity. Qed.

(** 0.0 and -0.0 are one value: the second row repeats the first. *)
Example zeros_duplicated :
  duplicated zeros = [false; true] /\
  map nunique (columns zeros) = [1].
Proof. split; reflexivity. Qed.

Example length_mismatch_text :
  length_mismatch 2 1
  = "Length mismatch: Expected axis has 2 elements, new values have 1 elements".
Proof. reflexivity. Qed.

Example rint_ties_to_even :
  rint (5 # 2) = 2%Z /\ rint (7 # 2) = 4%Z /\ rint (1249 # 100) = 12%Z.
Proof. repeat split; reflexivity. Qed.

Example flags_classification :
  categorical_cols flags = [] /\ numeric_cols flags = ["id"].
Proof. split; reflexivity. Qed.

Example no_upload (lib : Lib) (w : Widgets) :
  run lib None w
  = (Ok tt,
     mkState []
       [ PageConfig "Universal EDA Analyzer" "wide";
         Title "📊 Universal Data Analyzer using EDA";
         Markdown "Upload **any CSV dataset** to perform complete Exploratory Data Analysis";
         FileUploader "Upload CSV File" ["csv"];
         Info "👆 Upload a CSV file to start EDA" ]).
Proof. reflexivity. Qed.

(** ** Duplicate rows *)

Lemma distinct_length_perm {A : Type} `{EqDecision A} (l l' : list A) :
  (forall x, x ∈ l <-> x ∈ l') ->
  length (remove_dups l) = length (remove_dups l').
Proof.
  intros H. apply Permutation_length.
  apply NoDup_Permutation; [apply NoDup_remove_dups | apply NoDup_remove_dups |].
  intros x. rewrite !elem_of_remove_dups. apply H.
Qed.

Lemma sum_bools_cons (b : bool) (l : list bool) :
  sum_bools (b :: l) = (if b then 1 else 0) + sum_bools l.
Proof.
  unfold sum_bools. destruct b.
  - by rewrite filter_cons_True.
  - by rewrite filter_cons_False.
Qed.

(** Flagged rows and distinct rows add up to all rows, whatever was seen
    before. *)
Lemma duplicated_from_count (rs seen : list (list cell)) :
  sum_bools (duplicated_from seen rs) + length (remove_dups (rs ++ seen))
  = length rs + length (remove_dups seen).
Proof.
  revert seen. induction rs as [|r rs IH]; intros seen; [done|].
  cbn [duplicated_from]. rewrite sum_bools_cons.
  specialize (IH (r :: seen)).
  assert (E : length (remove_dups ((r :: rs) ++ seen))
              = length (remove_dups (rs ++ r :: seen))).
  { apply distinct_length_perm. intros x.
    rewrite !elem_of_app, !elem_of_cons. tauto. }
  rewrite E. cbn [length remove_dups] in *.
  destruct (decide_rel elem_of r seen) as [Hin|Hout].
  - rewrite bool_decide_eq_true_2 by done. lia.
  - rewrite bool_decide_eq_false_2 by done. cbn [length] in IH. lia.
Qed.

Lemma rows_length (d : DataFrame) : length (rows d) = index_len d.
Proof. unfold rows. by rewrite length_map, length_seq. Qed.

Lemma row_keys_length (d : DataFrame) :
  length (map row_key (rows d)) = index_len d.
Proof. by rewrite length_map, rows_length. Qed.

Lemma duplicated_sum (d : DataFrame) :
  sum_bools (duplicated d)
  = index_len d - length (remove_dups (map row_key (rows d))).
Proof.
  pose proof (duplicated_from_count (map row_key (rows d)) []) as H.
  rewrite app_nil_r, row_keys_length in H. unfold duplicated. simpl in H. lia.
Qed.

Lemma distinct_rows_le (d : DataFrame) :
  length (remove_dups (map row_key (rows d))) <= index_len d.
Proof.
  pose proof (duplicated_from_count (map row_key (rows d)) []) as H.
  rewrite app_nil_r, row_keys_length in H. simpl in H. lia.
Qed.

(** ** Rounding and the missing-value figures *)

Lemma rint_near (q : Q) : (Qabs (inject_Z (rint q) - q) <= 1 # 2)%Q.
Proof.
  pose proof (Qfloor_le q) as Hlo. pose proof (Qlt_floor q) as Hhi.
  rewrite inject_Z_plus in Hhi. change (inject_Z 1) with 1%Q in Hhi.
  apply Qabs_Qle_condition. unfold rint.
  destruct (Qcompare (q - inject_Z (Qfloor q)) (1 # 2)) eqn:E.
  - apply Qeq_alt in E.
    destruct (Z.even (Qfloor q)); rewrite ?inject_Z_plus;
      change (inject_Z 1) with 1%Q; split; lra.
  - apply Qlt_alt in E. split; lra.
  - apply Qgt_alt in E. rewrite inject_Z_plus.
    change (inject_Z 1) with 1%Q. split; lra.
Qed.

Lemma exact_round2_spec (q : Q) : rounded_to_2 q (exact_round2 q).
Proof.
  split.
  - exists (rint (q * 100)). reflexivity.
  - pose proof (rint_near (q * 100)) as H.
    apply Qabs_Qle_condition in H. apply Qabs_Qle_condition.
    unfold exact_round2, Qdiv. change (/ 100)%Q with (1 # 100)%Q.
    set (k := inject_Z (rint (q * 100))) in *. split; lra.
Qed.

Lemma is_null_key (v : cell) : is_null v = true <-> cell_key v = None.
Proof. destruct v as [[z|[]|b|x]|]; cbn; split; congruence. Qed.

Lemma sum_bools_isnull (c : Series) : sum_bools (isnull c) = null_entries c.
Proof.
  unfold isnull, null_entries. induction (values c) as [|v vs IH]; [done|].
  cbn [map]. rewrite sum_bools_cons, IH.
  pose proof (is_null_key v) as Hk. destruct (is_null v).
  - rewrite filter_cons_True by (by apply Hk). done.
  - rewrite filter_cons_False; [done|]. intros E. apply Hk in E. discriminate E.
Qed.

Lemma missing_count_spec (c : Series) : missing_count c = null_entries c.
Proof. apply sum_bools_isnull. Qed.

(** The percentage in terms of the column's missing entries and the table's
    rows. *)
Lemma missing_pct_spec (df : DataFrame) (c : Series) :
  wf_frame df -> c ∈ columns df ->
  missing_pct c
  = f64_round2
      (f64_mul (f64_div (f64_of_Z (Z.of_nat (null_entries c)))
                        (f64_of_Z (Z.of_nat (index_len df))))
               (f64_of_Z 100)).
Proof.
  intros Hwf Hc.
  assert (Hlen : length (isnull c) = index_len df).
  { unfold isnull. rewrite length_map.
    unfold wf_frame in Hwf. rewrite Forall_forall in Hwf. by apply Hwf. }
  unfold missing_pct, mean_bools. by rewrite Hlen, sum_bools_isnull.
Qed.

(** On an empty table the percentage is NaN. *)
Lemma missing_pct_empty (c : Series) : values c = [] -> missing_pct c = S754_nan.
Proof. intros H. unfold missing_pct, mean_bools, isnull. by rewrite H. Qed.

(** ** The two column lists *)

Lemma categorical_cols_spec (df : DataFrame) (n : string) :
  n ∈ categorical_cols df <->
  exists c, c ∈ columns df /\ name c = n /\ is_object_or_category (dtype c) = true.
Proof.
  unfold categorical_cols, column_names, select_dtypes. cbn [columns].
  change (map name ?l) with (name <$> l). rewrite list_elem_of_fmap.
  split.
  - intros (c & -> & Hc). apply list_elem_of_filter in Hc as [Ht Hc]. eauto.
  - intros (c & Hc & <- & Ht). exists c. split; [done|].
    by apply list_elem_of_filter.
Qed.

Lemma numeric_cols_spec (df : DataFrame) (n : string) :
  n ∈ numeric_cols df <->
  exists c, c ∈ columns df /\ name c = n /\ is_number (dtype c) = true.
Proof.
  unfold numeric_cols, column_names, select_dtypes. cbn [columns].
  change (map name ?l) with (name <$> l). rewrite list_elem_of_fmap.
  split.
  - intros (c & -> & Hc). apply list_elem_of_filter in Hc as [Ht Hc]. eauto.
  - intros (c & Hc & <- & Ht). exists c. split; [done|].
    by apply list_elem_of_filter.
Qed.

(** In a list without repetition the name determines the column. *)
Lemma name_determines_column (l : list Series) (c c' : Series) :
  NoDup (map name l) -> c ∈ l -> c' ∈ l -> name c = name c' -> c = c'.
Proof.
  induction l as [|x l IH]; intros Hnd Hc Hc' E.
  - by apply elem_of_nil in Hc.
  - cbn [map] in Hnd. apply NoDup_cons in Hnd as [Hx Hnd].
    apply elem_of_cons in Hc as [->|Hc]; apply elem_of_cons in Hc' as [->|Hc'].
    + done.
    + exfalso. apply Hx. rewrite E.
      change (map name l) with (name <$> l). by apply list_elem_of_fmap_2.
    + exfalso. apply Hx. rewrite <- E.
      change (map name l) with (name <$> l). by apply list_elem_of_fmap_2.
    + by apply IH.
Qed.

(** ** The charts and the export, as a whole *)

Ltac unfold_sections :=
  unfold charts, statistics, univariate, histogram, value_count_bar,
    dynamic_bar, dynamic_bar_body, dynamic_pie, dynamic_pie_body,
    count_pie, count_pie_body, heatmap, outlier, download.

(** The profile is all shown before the charts. *)
Lemma charts_no_profile (lib : Lib) (w : Widgets) (df : nat)
    (cat num : list string) :
  emits_only (fun e => ~ is_profile e) (charts lib w df cat num).
Proof. unfold_sections. emits_walk ltac:(cbn; tauto). Qed.

(** After a successful parse the page is the profile followed by what the
    charts add. *)
Lemma run_page (P : Event -> Prop) (lib : Lib) (file : list byte)
    (w : Widgets) (df : DataFrame) :
  read_csv lib file = Ok df ->
  emits_only P (charts lib w 0 (categorical_cols df) (numeric_cols df)) ->
  exists tr, out (run lib (Some file) w).2 = loaded_page df ++ tr /\ Forall P tr.
Proof.
  intros H HP. rewrite (run_loaded _ _ _ _ H).
  destruct (HP (mkState [df] (loaded_page df))) as (tr & E & F). eauto.
Qed.

(** Case analysis on where an element of the loaded page sits. *)
Ltac page_cases H :=
  unfold loaded_page in H;
  repeat (apply elem_of_cons in H as [H|H]; [try discriminate H|]);
  [.. | by apply elem_of_nil in H].


(** The store's first object is left alone. *)
Lemma charts_keeps (lib : Lib) (w : Widgets) (cat num : list string)
    (d0 : DataFrame) :
  keeps d0 (charts lib w 0 cat num) (fun _ => True).
Proof. unfold_sections. keeps_walk. Qed.

(** ** The guarded sections *)

Lemma try_except_emit (e : Event) (handler : Exn -> M unit) :
  try_except (emit e) handler = emit e.
Proof. reflexivity. Qed.

(** A [try] whose handler only shows a message never raises; when the body
    raises, the message is added to what the body had shown. *)
Lemma try_except_shows (body : M unit) (msg : Exn -> Event) (s : State) :
  (try_except body (fun e => emit (msg e)) s).1 = Ok tt /\
  forall e s', body s = (Raise e, s') ->
    try_except body (fun e => emit (msg e)) s
    = (Ok tt, mkState (heap s') (out s' ++ [msg e])).
Proof.
  unfold try_except. split.
  - by destruct (body s) as [[[]|e] s'].
  - by intros e s' ->.
Qed.

(** Without categorical columns each of the three sections shows its title
    and its warning, and returns. *)
Lemma dynamic_bar_skipped (lib : Lib) (w : Widgets) (df : nat)
    (num : list string) (s : State) :
  dynamic_bar lib w df [] num s
  = (Ok tt, mkState (heap s)
      (out s ++ [Subheader "📊 Dynamic Bar Chart";
                 Warning "⚠️ Need both categorical and numeric columns for bar chart"])).
Proof.
  unfold dynamic_bar, dynamic_bar_body. cbn [length Nat.ltb Nat.leb andb].
  rewrite try_except_emit, bind_run. unfold emit. cbn.
  by rewrite <- app_assoc.
Qed.

Lemma dynamic_pie_skipped (lib : Lib) (w : Widgets) (df : nat)
    (num : list string) (s : State) :
  dynamic_pie lib w df [] num s
  = (Ok tt, mkState (heap s)
      (out s ++ [Subheader "🥧 Dynamic Pie Chart";
                 Warning "⚠️ Need both categorical and numeric columns for pie chart"])).
Proof.
  unfold dynamic_pie, dynamic_pie_body. cbn [length Nat.ltb Nat.leb andb].
  rewrite try_except_emit, bind_run. unfold emit. cbn.
  by rewrite <- app_assoc.
Qed.

Lemma count_pie_skipped (lib : Lib) (w : Widgets) (df : nat) (s : State) :
  count_pie lib w df [] s
  = (Ok tt, mkState (heap s)
      (out s ++ [Subheader "🥧 Category Distribution Pie Chart";
                 Warning "⚠️ No categorical columns available for distribution chart"])).
Proof.
  unfold count_pie, count_pie_body. cbn [length Nat.ltb Nat.leb andb].
  rewrite try_except_emit, bind_run. unfold emit. cbn.
  by rewrite <- app_assoc.
Qed.

(** Without categorical columns no error message and no bar or pie chart is
    shown by the charts. *)
Lemma charts_quiet (lib : Lib) (w : Widgets) (df : nat) (num : list string) :
  emits_only (fun e => ~ is_error e /\ ~ is_category_chart e)
             (charts lib w df [] num).
Proof.
  unfold_sections. cbn [length Nat.ltb Nat.leb andb truthy].
  rewrite !try_except_emit.
  emits_walk ltac:(cbn; tauto).
Qed.

(** What follows the three guarded sections only adds to the page. *)
Lemma after_count_pie_adds (lib : Lib) (w : Widgets) (df : nat)
    (num : list string) :
  emits_only (fun _ => True)
    (heatmap lib df num ≫= fun _ =>
     outlier lib w df num ≫= fun _ => download lib df).
Proof. unfold_sections. emits_walk ltac:(exact I). Qed.


(** ** The heatmap section *)




(** * The claims *)

(** ** C9: the reported dimensions *)

(** C9. For every upload that parses, the page shows the "Rows" metric with
    the number of rows of the parsed table and the "Columns" metric with its
    number of columns, and shows no other value under these two labels. *)
Theorem reported_dimensions (lib : Lib) (file : list byte) (w : Widgets)
    (df : DataFrame) :
  read_csv lib file = Ok df ->
  let page := out (run lib (Some file) w).2 in
  (forall v, Metric "Rows" v ∈ page <-> v = index_len df) /\
  (forall v, Metric "Columns" v ∈ page <-> v = length (columns df)).
Proof.
  intros H page.
  destruct (run_page _ lib file w df H (charts_no_profile _ _ _ _ _))
    as (tr & E & F).
  subst page. rewrite E. rewrite Forall_forall in F.
  split; intros v; split.
  - intros Hin. apply elem_of_app in Hin as [Hin|Hin].
    + page_cases Hin. by injection Hin.
    + by apply F in Hin.
  - intros ->. apply elem_of_app. left. unfold loaded_page.
    do 9 apply list_elem_of_further. apply list_elem_of_here.
  - intros Hin. apply elem_of_app in Hin as [Hin|Hin].
    + page_cases Hin. by injection Hin.
    + by apply F in Hin.
  - intros ->. apply elem_of_app. left. unfold loaded_page.
    do 10 apply list_elem_of_further. apply list_elem_of_here.
Qed.

Lemma reported_dimensions_witness :
  read_csv (sample_lib sales) some_file = Ok sales /\
  (forall v, Metric "Rows" v ∈ out (run (sample_lib sales) (Some some_file) first_choices).2
             <-> v = 3) /\
  (forall v, Metric "Columns" v ∈ out (run (sample_lib sales) (Some some_file) first_choices).2
             <-> v = 3).
Proof.
  split; [reflexivity|].
  apply (reported_dimensions (sample_lib sales) some_file first_choices sales).
  reflexivity.
Defined.

(** ** C10: the duplicate-row count *)

(** C10. For every upload that parses, the "Duplicate Rows" metric shown is
    the number of rows minus the number of distinct rows (which is at most
    the number of rows), rows being compared as pandas compares them: cell
    by cell, a float by its value and missing values as equal. The page
    shows no other value under that label. *)
Theorem reported_duplicates (lib : Lib) (file : list byte) (w : Widgets)
    (df : DataFrame) :
  read_csv lib file = Ok df ->
  length (remove_dups (map row_key (rows df))) <= length (rows df) /\
  forall v, Metric "Duplicate Rows" v ∈ out (run lib (Some file) w).2 <->
            v = length (rows df) - length (remove_dups (map row_key (rows df))).
Proof.
  intros H. split; [rewrite rows_length; apply distinct_rows_le|]. intros v.
  destruct (run_page _ lib file w df H (charts_no_profile _ _ _ _ _))
    as (tr & E & F).
  rewrite E, rows_length, <- duplicated_sum. rewrite Forall_forall in F.
  split.
  - intros Hin. apply elem_of_app in Hin as [Hin|Hin].
    + page_cases Hin. by injection Hin.
    + by apply F in Hin.
  - intros ->. apply elem_of_app. left. unfold loaded_page.
    do 11 apply list_elem_of_further. apply list_elem_of_here.
Qed.

Lemma reported_duplicates_witness :
  read_csv (sample_lib zeros) some_file = Ok zeros /\
  length (remove_dups (map row_key (rows zeros))) <= length (rows zeros) /\
  forall v,
    Metric "Duplicate Rows" v
      ∈ out (run (sample_lib zeros) (Some some_file) first_choices).2
    <-> v = length (rows zeros) - length (remove_dups (map row_key (rows zeros))).
Proof.
  split; [reflexivity|].
  apply (reported_duplicates (sample_lib zeros) some_file first_choices zeros).
  reflexivity.
Defined.

(** ** C4: the missing percentage *)

(** C4 as stated fails on a column with 23 missing entries among 160: the
    exact (23 / 160) x 100 is 14.375, which rounds to 14.38 with ties to
    even as with ties upwards, and that is the claim's value; the code
    divides, multiplies and rounds in float64, where the product is
    14.374999999999998, and shows 14.37. *)
Lemma missing_pct_not_exact_rounding :
  null_entries gaps = 23 /\ length (values gaps) = 160 /\
  (exact_pct 23 160 == 14375 # 1000)%Q /\
  (exact_round2 (exact_pct 23 160) == 1438 # 100)%Q /\
  Qfloor (exact_pct 23 160 * 100 + (1 # 2)) = 1438%Z /\
  claimed_pct 23 160 = f64_of_hundredths 1438 /\
  missing_pct gaps = f64_of_hundredths 1437 /\
  missing_pct gaps <> claimed_pct 23 160 /\
  MissingTable [("x", 23, f64_of_hundredths 1437)]
    ∈ loaded_page (mkFrame 160 [gaps]).
Proof.
  split; [reflexivity|]. split; [reflexivity|]. split; [reflexivity|].
  split; [reflexivity|]. split; [reflexivity|]. split; [reflexivity|].
  assert (E : missing_pct gaps = f64_of_hundredths 1437)
    by (vm_compute; reflexivity).
  split; [exact E|]. split.
  - rewrite E. vm_compute. discriminate.
  - unfold loaded_page, missing_df. cbn [columns map name].
    rewrite E. change (missing_count gaps) with 23.
    do 21 apply list_elem_of_further. apply list_elem_of_here.
Qed.

(** C4, as the code has it. For every upload that parses to a well-formed
    table, the missing-value table shown is [missing_df] of the parsed table
    and no other, and its line for a column gives the column's number of
    missing entries and, as percentage, the float64 value of
    round((missing / rows) * 100, 2): the quotient of the two counts as
    floats, its product with 100.0, and numpy's rounding (times 100.0,
    nearest integer with ties to even, divided by 100.0). For a table
    without rows it is NaN. *)
Theorem reported_missing_pct (lib : Lib) (file : list byte) (w : Widgets)
    (df : DataFrame) (c : Series) :
  read_csv lib file = Ok df ->
  wf_frame df -> c ∈ columns df ->
  (forall t, MissingTable t ∈ out (run lib (Some file) w).2 <-> t = missing_df df) /\
  (name c, null_entries c,
   f64_div
     (f64_rint
        (f64_mul
           (f64_mul (f64_div (f64_of_Z (Z.of_nat (null_entries c)))
                             (f64_of_Z (Z.of_nat (index_len df))))
                    (f64_of_Z 100))
           (f64_of_Z 100)))
     (f64_of_Z 100)) ∈ missing_df df /\
  (index_len df = 0 -> missing_pct c = S754_nan).
Proof.
  intros H Hwf Hc. split; [|split].
  - intros t.
    destruct (run_page _ lib file w df H (charts_no_profile _ _ _ _ _))
      as (tr & E & F).
    rewrite E. rewrite Forall_forall in F. split.
    + intros Hin. apply elem_of_app in Hin as [Hin|Hin].
      * page_cases Hin. by injection Hin.
      * by apply F in Hin.
    + intros ->. apply elem_of_app. left. unfold loaded_page.
      do 21 apply list_elem_of_further. apply list_elem_of_here.
  - unfold missing_df. change (map ?f ?l) with (f <$> l).
    apply list_elem_of_fmap. exists c. split; [|done].
    by rewrite missing_count_spec, (missing_pct_spec df c Hwf Hc).
  - intros Hz. apply missing_pct_empty.
    unfold wf_frame in Hwf. rewrite Forall_forall in Hwf.
    specialize (Hwf c Hc). rewrite Hz in Hwf. by apply length_zero_iff_nil.
Qed.

Lemma reported_missing_pct_witness :
  read_csv (sample_lib sales) some_file = Ok sales /\
  wf_frame sales /\
  mkSeries "price" float64
    [Some (SFloat f64_one_and_half); Some (SFloat S754_nan);
     Some (SFloat f64_one_and_half)] ∈ columns sales /\
  (forall t, MissingTable t
               ∈ out (run (sample_lib sales) (Some some_file) first_choices).2
             <-> t = missing_df sales) /\
  ("price", 1, f64_of_hundredths 3333) ∈ missing_df sales.
Proof.
  assert (Hwf : wf_frame sales) by (repeat constructor).
  assert (Hc : mkSeries "price" float64
                 [Some (SFloat f64_one_and_half); Some (SFloat S754_nan);
                  Some (SFloat f64_one_and_half)] ∈ columns sales).
  { cbn. do 2 apply list_elem_of_further. apply list_elem_of_here. }
  split; [reflexivity|]. split; [exact Hwf|]. split; [exact Hc|].
  destruct (reported_missing_pct (sample_lib sales) some_file first_choices
              sales _ eq_refl Hwf Hc) as (Hpage & Hline & _).
  split; [exact Hpage|].
  replace (f64_of_hundredths 3333)
    with (f64_div
            (f64_rint
               (f64_mul
                  (f64_mul (f64_div (f64_of_Z 1) (f64_of_Z 3)) (f64_of_Z 100))
                  (f64_of_Z 100)))
            (f64_of_Z 100)) by (vm_compute; reflexivity).
  exact Hline.
Defined.

(** ** C2: the two column lists *)

(** C2, as the code has it. When the column names are distinct, the
    categorical list and the numeric list share no name, both hold only
    names of columns, and a column's name is in one of them exactly when
    its dtype is object, category or a number; columns of another dtype are
    in neither list. *)
Theorem classification_partition (df : DataFrame) :
  NoDup (column_names df) ->
  (forall n, n ∈ categorical_cols df -> n ∉ numeric_cols df) /\
  (forall n, n ∈ categorical_cols df \/ n ∈ numeric_cols df ->
             n ∈ column_names df) /\
  (forall c, c ∈ columns df ->
     (name c ∈ categorical_cols df \/ name c ∈ numeric_cols df) <->
     (is_object_or_category (dtype c) = true \/ is_number (dtype c) = true)).
Proof.
  intros Hnd. split; [|split].
  - intros n Hc Hn.
    apply categorical_cols_spec in Hc as (c & Hc & <- & Tc).
    apply numeric_cols_spec in Hn as (c' & Hc' & E & Tn).
    assert (c' = c) as -> by (by apply (name_determines_column (columns df))).
    by destruct (dtype c).
  - intros n [Hn|Hn].
    + apply categorical_cols_spec in Hn as (c & Hc & <- & _).
      unfold column_names. change (map name ?l) with (name <$> l).
      by apply list_elem_of_fmap_2.
    + apply numeric_cols_spec in Hn as (c & Hc & <- & _).
      unfold column_names. change (map name ?l) with (name <$> l).
      by apply list_elem_of_fmap_2.
  - intros c Hc. rewrite categorical_cols_spec, numeric_cols_spec. split.
    + intros [(c' & Hc' & E & T)|(c' & Hc' & E & T)];
        assert (c' = c) as -> by (by apply (name_determines_column (columns df)));
        auto.
    + intros [T|T]; [left|right]; eauto.
Qed.

Lemma classification_partition_witness :
  NoDup (column_names flags) /\
  (forall n, n ∈ categorical_cols flags -> n ∉ numeric_cols flags) /\
  (forall n, n ∈ categorical_cols flags \/ n ∈ numeric_cols flags ->
             n ∈ column_names flags) /\
  (forall c, c ∈ columns flags ->
     (name c ∈ categorical_cols flags \/ name c ∈ numeric_cols flags) <->
     (is_object_or_category (dtype c) = true \/ is_number (dtype c) = true)).
Proof.
  assert (Hnd : NoDup (column_names flags)).
  { cbn. apply NoDup_cons. split.
    - intros H. apply list_elem_of_singleton in H. discriminate H.
    - apply NoDup_singleton. }
  split; [exact Hnd|]. apply (classification_partition flags Hnd).
Defined.

(** C2 as stated fails: the boolean column of [flags] is a column of the
    table and is in neither list, so the two lists do not cover the
    columns. *)
Lemma classification_not_a_cover :
  ~ (forall n, n ∈ column_names flags ->
               n ∈ categorical_cols flags \/ n ∈ numeric_cols flags).
Proof.
  intros H. destruct (H "active") as [Hin|Hin].
  - cbn. apply list_elem_of_further. apply list_elem_of_here.
  - cbn in Hin. by apply elem_of_nil in Hin.
  - cbn in Hin. apply list_elem_of_singleton in Hin. discriminate Hin.
Qed.

(** ** C7: a file that does not parse *)

(** C7. When the parser raises on the uploaded bytes, the render pass ends
    with that exception: nothing catches it, the page holds only what was
    shown before the parse (no later section, no message), and no table
    exists. *)
Theorem parse_failure_propagates (lib : Lib) (file : list byte) (w : Widgets)
    (e : Exn) :
  read_csv lib file = Raise e ->
  run lib (Some file) w
  = (Raise e,
     mkState []
       [ PageConfig "Universal EDA Analyzer" "wide";
         Title "📊 Universal Data Analyzer using EDA";
         Markdown "Upload **any CSV dataset** to perform complete Exploratory Data Analysis";
         FileUploader "Upload CSV File" ["csv"] ]).
Proof.
  intros H. unfold run, script, load. rewrite !bind_run. simpl.
  unfold lift. rewrite !bind_run. by rewrite H.
Qed.

Lemma parse_failure_propagates_witness :
  read_csv (sample_lib sales) [] = Raise "No columns to parse from file" /\
  run (sample_lib sales) (Some []) first_choices
  = (Raise "No columns to parse from file",
     mkState []
       [ PageConfig "Universal EDA Analyzer" "wide";
         Title "📊 Universal Data Analyzer using EDA";
         Markdown "Upload **any CSV dataset** to perform complete Exploratory Data Analysis";
         FileUploader "Upload CSV File" ["csv"] ]).
Proof.
  split; [reflexivity|].
  apply (parse_failure_propagates (sample_lib sales) [] first_choices).
  reflexivity.
Defined.

(** ** C8: the table is only read *)

(** C8. For every upload that parses and every widget selection, when the
    render pass ends, normally or by an exception, the object bound to [df]
    (the first of the store) is the table as parsed: the only assignment to
    a table, [columns = ...], hits objects created later. *)
Theorem table_never_mutated (lib : Lib) (file : list byte) (w : Widgets)
    (df : DataFrame) :
  read_csv lib file = Ok df ->
  heap (run lib (Some file) w).2 !! 0 = Some df.
Proof.
  intros H. rewrite (run_loaded _ _ _ _ H).
  by apply (charts_keeps lib w _ _ df).
Qed.

Lemma table_never_mutated_witness :
  read_csv (sample_lib sales) some_file = Ok sales /\
  heap (run (sample_lib sales) (Some some_file) first_choices).2 !! 0
  = Some sales.
Proof.
  split; [reflexivity|].
  apply (table_never_mutated (sample_lib sales) some_file first_choices sales).
  reflexivity.
Defined.

(** ** C5: the heatmap and its guard *)





(** ** C6: no categorical column *)

Lemma charts_Ok_skipped (lib : Lib) (w : Widgets) (df : nat)
    (num : list string) (s t : State) :
  charts lib w df [] num s = (Ok tt, t) ->
  Warning "⚠️ Need both categorical and numeric columns for bar chart" ∈ out t /\
  Warning "⚠️ Need both categorical and numeric columns for pie chart" ∈ out t /\
  Warning "⚠️ No categorical columns available for distribution chart" ∈ out t.
Proof.
  unfold charts. intros H.
  apply bind_Ok_inv in H as (u1 & s1 & _ & H).
  apply bind_Ok_inv in H as (u2 & s2 & _ & H).
  apply bind_Ok_inv in H as (u3 & s3 & Hbar & H).
  apply bind_Ok_inv in H as (u4 & s4 & Hpie & H).
  apply bind_Ok_inv in H as (u5 & s5 & Hcount & H).
  rewrite dynamic_bar_skipped in Hbar. injection Hbar as _ <-.
  rewrite dynamic_pie_skipped in Hpie. injection Hpie as _ <-.
  rewrite count_pie_skipped in Hcount. injection Hcount as _ <-.
  match type of H with
  | _ ?st = _ => destruct (after_count_pie_adds lib w df num st) as (tr & E & _)
  end.
  rewrite H in E. cbn [snd out] in E. rewrite E.
  rewrite !elem_of_app, !elem_of_cons. tauto.
Qed.

(** C6. For every upload that parses to a table without categorical
    columns: the page never shows an error message nor a bar or pie chart;
    each of the three sections that need a category (dynamic bar, dynamic
    pie or donut, category distribution), from whatever state it is reached,
    shows its title and its warning and returns without raising; and when
    the render pass completes the three warnings are on the page. *)
Theorem no_categorical_columns_skipped (lib : Lib) (file : list byte)
    (w : Widgets) (df : DataFrame) :
  read_csv lib file = Ok df ->
  categorical_cols df = [] ->
  let r := run lib (Some file) w in
  Forall (fun e => ~ is_error e /\ ~ is_category_chart e) (out r.2) /\
  (forall s,
     dynamic_bar lib w 0 (categorical_cols df) (numeric_cols df) s
     = (Ok tt, mkState (heap s)
         (out s ++ [Subheader "📊 Dynamic Bar Chart";
                    Warning "⚠️ Need both categorical and numeric columns for bar chart"])) /\
     dynamic_pie lib w 0 (categorical_cols df) (numeric_cols df) s
     = (Ok tt, mkState (heap s)
         (out s ++ [Subheader "🥧 Dynamic Pie Chart";
                    Warning "⚠️ Need both categorical and numeric columns for pie chart"])) /\
     count_pie lib w 0 (categorical_cols df) s
     = (Ok tt, mkState (heap s)
         (out s ++ [Subheader "🥧 Category Distribution Pie Chart";
                    Warning "⚠️ No categorical columns available for distribution chart"]))) /\
  (r.1 = Ok tt ->
   Warning "⚠️ Need both categorical and numeric columns for bar chart" ∈ out r.2 /\
   Warning "⚠️ Need both categorical and numeric columns for pie chart" ∈ out r.2 /\
   Warning "⚠️ No categorical columns available for distribution chart" ∈ out r.2).
Proof.
  intros H Hcat r. split; [|split].
  - subst r. rewrite (run_loaded _ _ _ _ H), Hcat.
    destruct (charts_quiet lib w 0 (numeric_cols df)
                (mkState [df] (loaded_page df))) as (tr & E & F).
    rewrite E. apply Forall_app. split; [|exact F].
    cbn [out]. unfold loaded_page.
    repeat (apply Forall_cons; split; [cbn; tauto|]).
    constructor.
  - intros s. rewrite Hcat.
    by rewrite dynamic_bar_skipped, dynamic_pie_skipped, count_pie_skipped.
  - subst r. rewrite (run_loaded _ _ _ _ H), Hcat. intros Hok.
    destruct (charts _ _ _ _ _ _) as [[[]|e] t] eqn:E; [|discriminate Hok].
    by apply charts_Ok_skipped in E.
Qed.

Lemma no_categorical_columns_skipped_witness :
  read_csv (sample_lib readings) some_file = Ok readings /\
  categorical_cols readings = [] /\
  (run (sample_lib readings) (Some some_file) first_choices).1 = Ok tt /\
  Forall (fun e => ~ is_error e /\ ~ is_category_chart e)
         (out (run (sample_lib readings) (Some some_file) first_choices).2) /\
  Warning "⚠️ Need both categorical and numeric columns for bar chart"
    ∈ out (run (sample_lib readings) (Some some_file) first_choices).2 /\
  Warning "⚠️ Need both categorical and numeric columns for pie chart"
    ∈ out (run (sample_lib readings) (Some some_file) first_choices).2 /\
  Warning "⚠️ No categorical columns available for distribution chart"
    ∈ out (run (sample_lib readings) (Some some_file) first_choices).2.
Proof.
  destruct (no_categorical_columns_skipped (sample_lib readings) some_file
              first_choices readings eq_refl eq_refl) as (Hq & _ & Hw).
  split; [reflexivity|]. split; [reflexivity|]. split; [reflexivity|].
  split; [exact Hq|]. apply Hw. reflexivity.
Defined.

(** ** C3: failures inside the chart builders *)

(** C3 as stated fails twice on the table [tally], whose second text column
    is called "count", so that counting its values raises.
    - Chosen for the value-count bar (line 100, outside any [try]), the
      failure ends the render pass: no warning and no error message is
      shown and the sections from "Dynamic Bar Chart" on never run.
    - Chosen for the category-distribution pie (line 182, inside a [try]),
      the failure is caught and the pass completes, but what is shown is an
      error message, not a warning. *)
Lemma chart_failure_not_always_a_warning :
  let halted := run (sample_lib tally) (Some some_file)
                    (mkWidgets 0 1 0 0 0 0 0 0 0 0) in
  let caught := run (sample_lib tally) (Some some_file)
                    (mkWidgets 0 0 0 0 0 0 0 0 1 0) in
  (halted.1 = Raise "cannot insert count, already exists" /\
   Forall (fun e => ~ is_warning e /\ ~ is_error e /\
                    e <> Subheader "📊 Dynamic Bar Chart") (out halted.2)) /\
  (caught.1 = Ok tt /\
   Error "Error creating distribution chart: cannot insert count, already exists"
     ∈ out caught.2 /\
   Forall (fun e => ~ is_warning e) (out caught.2)).
Proof.
  intros halted caught. split; split.
  - reflexivity.
  - set (page := out halted.2). vm_compute in page. subst page.
    repeat (apply Forall_cons; split;
            [cbn; split; [tauto | split; [tauto | congruence]]|]).
    constructor.
  - reflexivity.
  - split.
    + set (page := out caught.2). vm_compute in page. subst page.
      repeat first [apply list_elem_of_here | apply list_elem_of_further].
    + set (page := out caught.2). vm_compute in page. subst page.
      repeat (apply Forall_cons; split; [cbn; tauto|]).
      constructor.
Qed.

(** C3, as the code has it. The dynamic bar chart, the dynamic pie or donut
    chart and the category-distribution pie never raise, so the sections
    after them run; when the aggregation or the rendering inside one of
    them raises, an error message carrying the exception's text is added to
    what the section had shown so far. *)
Theorem guarded_charts_report_errors (lib : Lib) (w : Widgets) (df : nat)
    (cat num : list string) (s : State) :
  ((dynamic_bar lib w df cat num s).1 = Ok tt /\
   forall e s',
     dynamic_bar_body lib w df cat num
       (after_subheader "📊 Dynamic Bar Chart" s) = (Raise e, s') ->
     dynamic_bar lib w df cat num s
     = (Ok tt, mkState (heap s')
                 (out s' ++ [Error ("Error creating bar chart: " ++ e)]))) /\
  ((dynamic_pie lib w df cat num s).1 = Ok tt /\
   forall e s',
     dynamic_pie_body lib w df cat num
       (after_subheader "🥧 Dynamic Pie Chart" s) = (Raise e, s') ->
     dynamic_pie lib w df cat num s
     = (Ok tt, mkState (heap s')
                 (out s' ++ [Error ("Error creating pie chart: " ++ e)]))) /\
  ((count_pie lib w df cat s).1 = Ok tt /\
   forall e s',
     count_pie_body lib w df cat
       (after_subheader "🥧 Category Distribution Pie Chart" s) = (Raise e, s') ->
     count_pie lib w df cat s
     = (Ok tt, mkState (heap s')
                 (out s' ++ [Error ("Error creating distribution chart: " ++ e)]))).
Proof.
  unfold dynamic_bar, dynamic_pie, count_pie. rewrite !bind_run.
  change (emit (Subheader ?t) s) with (Ok tt, after_subheader t s). cbn iota.
  split; [|split]; apply try_except_shows.
Qed.

Lemma guarded_charts_report_errors_witness :
  count_pie (sample_lib tally) (mkWidgets 0 0 0 0 0 0 0 0 1 0) 0
            ["region"; "count"] (mkState [tally] [])
  = (Ok tt,
     mkState [tally]
       [ Subheader "🥧 Category Distribution Pie Chart";
         Selectbox "Select Category to Visualize" ["region"; "count"]
                   (Some "count_pie_cat");
         Error "Error creating distribution chart: cannot insert count, already exists" ]).
Proof.
  destruct (guarded_charts_report_errors (sample_lib tally)
              (mkWidgets 0 0 0 0 0 0 0 0 1 0) 0 ["region"; "count"] ["n"]
              (mkState [tally] [])) as (_ & _ & _ & Hc).
  exact (Hc "cannot insert count, already exists"
            (mkState [tally]
               [ Subheader "🥧 Category Distribution Pie Chart";
                 Selectbox "Select Category to Visualize" ["region"; "count"]
                           (Some "count_pie_cat") ])
            eq_refl).
Defined.

(** ** The export *)

Lemma keeps_bind_Ok_inv {A B : Type} (d0 : DataFrame) (m : M A) (f : A -> M B)
    (Q : A -> Prop) (s t : State) (b : B) :
  keeps d0 m Q -> heap s !! 0 = Some d0 -> (m ≫= f) s = (Ok b, t) ->
  exists a s', heap s' !! 0 = Some d0 /\ f a s' = (Ok b, t).
Proof.
  intros Hm Hs H. apply bind_Ok_inv in H as (a & s' & Hms & H).
  destruct (Hm s Hs) as [Hh _]. rewrite Hms in Hh. eauto.
Qed.

(** What the download button offers when the render pass completes: the
    UTF-8 bytes of [to_csv] of the table exactly as parsed. Whether parsing
    these bytes again gives the table back is a property of the library's
    writer and parser. *)
Lemma download_offers_parsed_table (lib : Lib) (file : list byte) (w : Widgets)
    (df : DataFrame) :
  read_csv lib file = Ok df ->
  (run lib (Some file) w).1 = Ok tt ->
  DownloadButton "Download CSV" (list_byte_of_string (to_csv lib df))
                 "cleaned_dataset.csv" "text/csv"
    ∈ out (run lib (Some file) w).2.
Proof.
  intros H. rewrite (run_loaded _ _ _ _ H). intros Hok.
  destruct (charts _ _ _ _ _ _) as [[[]|e] t] eqn:E; [|discriminate Hok].
  clear Hok. unfold charts in E.
  assert (Hs : heap (mkState [df] (loaded_page df)) !! 0 = Some df) by done.
  revert E Hs. generalize (mkState [df] (loaded_page df)). intros s E Hs.
  do 7 (eapply keeps_bind_Ok_inv in E as (? & ? & ? & E);
        [| unfold_sections; keeps_walk | eassumption]).
  unfold download in E.
  apply bind_Ok_inv in E as ([] & s8 & Hsub & E). injection Hsub as <-.
  apply bind_Ok_inv in E as (d & s9 & Hget & E).
  unfold get in Hget. cbn [heap] in Hget.
  match type of Hget with
  | context [heap ?s' !! 0] =>
      match goal with Hh : heap s' !! 0 = Some df |- _ => rewrite Hh in Hget end
  end.
  injection Hget as <- <-. injection E as <-.
  cbn. apply elem_of_app. right. apply list_elem_of_here.
Qed.

(** * Further properties of the code *)

(** ** The preview (line 32) *)

Lemma row_head (d : DataFrame) (i : nat) : i < 5 -> row (head d) i = row d i.
Proof.
  intros Hi. unfold row, head. cbn [columns]. rewrite map_map.
  apply map_ext. intros c. cbn [values]. by rewrite lookup_take_lt.
Qed.

Lemma rows_head (d : DataFrame) : rows (head d) = take 5 (rows d).
Proof.
  unfold rows. cbn [index_len head].
  change (take 5 (map (row d) (seq 0 (index_len d))))
    with (take 5 (row d <$> seq 0 (index_len d))).
  rewrite <- fmap_take, take_seq.
  apply map_ext_in. intros i Hi. apply in_seq in Hi.
  apply row_head. lia.
Qed.

(** X1. After a successful parse the preview on the page is [df.head()]:
    its rows are the first five rows of the parsed table (all of them when
    there are fewer), under the same column names, and taking the head
    again changes nothing. *)
Theorem preview_first_five_rows (lib : Lib) (file : list byte) (w : Widgets)
    (df : DataFrame) :
  read_csv lib file = Ok df ->
  Dataframe (head df) ∈ out (run lib (Some file) w).2 /\
  rows (head df) = take 5 (rows df) /\
  column_names (head df) = column_names df /\
  head (head df) = head df.
Proof.
  intros H. split; [|split; [|split]].
  - destruct (run_page (fun _ => True) lib file w df H) as (tr & E & _).
    { unfold_sections. emits_walk ltac:(exact I). }
    rewrite E. apply elem_of_app. left. unfold loaded_page.
    do 6 apply list_elem_of_further. apply list_elem_of_here.
  - apply rows_head.
  - unfold column_names, head. cbn [columns]. rewrite map_map. by apply map_ext.
  - unfold head. cbn [index_len columns]. f_equal; [lia|].
    rewrite map_map. apply map_ext. intros c. cbn [name dtype values].
    by rewrite take_take, Nat.min_id.
Qed.

Lemma preview_first_five_rows_witness :
  read_csv (sample_lib sales) some_file = Ok sales /\
  Dataframe (head sales)
    ∈ out (run (sample_lib sales) (Some some_file) first_choices).2 /\
  rows (head sales) = take 5 (rows sales) /\
  column_names (head sales) = column_names sales /\
  head (head sales) = head sales.
Proof.
  split; [reflexivity|].
  apply (preview_first_five_rows (sample_lib sales) some_file first_choices sales).
  reflexivity.
Defined.

(** ** Which rows are flagged as duplicates (line 42) *)

Lemma duplicated_from_length (rs seen : list (list cell)) :
  length (duplicated_from seen rs) = length rs.
Proof.
  revert seen. induction rs as [|r rs IH]; intros seen; [done|].
  cbn. by rewrite IH.
Qed.

Lemma duplicated_from_lookup (rs seen : list (list cell)) (i : nat) (b : bool) :
  duplicated_from seen rs !! i = Some b ->
  exists r, rs !! i = Some r /\
    (b = true <-> r ∈ seen \/ exists j, j < i /\ rs !! j = Some r).
Proof.
  revert seen i. induction rs as [|r0 rs IH]; intros seen i H; [done|].
  destruct i as [|i]; cbn in H.
  - injection H as <-. exists r0. split; [done|].
    rewrite bool_decide_eq_true. split; [by left|].
    intros [Hin|(j & Hj & _)]; [done | lia].
  - destruct (IH _ _ H) as (r & Hr & Hb). exists r. split; [done|].
    rewrite Hb, elem_of_cons. split.
    + intros [[->|Hin]|(j & Hj & Hrj)].
      * right. exists 0. split; [lia | done].
      * by left.
      * right. exists (S j). split; [lia | done].
    + intros [Hin|(j & Hj & Hrj)]; [by left; right|].
      destruct j as [|j].
      * left. left. by injection Hrj.
      * right. exists j. split; [lia | done].
Qed.

(** X2. [df.duplicated()] has one flag per row, and the flag of a row is set
    exactly when a row that pandas compares equal to it (cell by cell, a
    float by its value, missing values as equal) stands before it; the
    first occurrence of a row is never flagged. *)
Theorem duplicated_flags (d : DataFrame) :
  length (duplicated d) = index_len d /\
  forall i b, duplicated d !! i = Some b ->
    (b = true <->
     exists j, j < i /\ map row_key (rows d) !! j = map row_key (rows d) !! i).
Proof.
  split.
  - unfold duplicated. by rewrite duplicated_from_length, row_keys_length.
  - intros i b H. apply duplicated_from_lookup in H as (r & Hr & Hb).
    rewrite Hb, Hr. split.
    + intros [Hin|Hj]; [by apply elem_of_nil in Hin | done].
    + intros Hj. by right.
Qed.

Lemma remove_dups_length_le {A : Type} `{EqDecision A} (l : list A) :
  length (remove_dups l) <= length l.
Proof.
  induction l as [|x l IH]; [done|]. cbn. destruct (decide_rel _ _ _); cbn; lia.
Qed.

Lemma remove_dups_length_NoDup {A : Type} `{EqDecision A} (l : list A) :
  length (remove_dups l) = length l <-> NoDup l.
Proof.
  induction l as [|x l IH].
  - split; [constructor | done].
  - cbn. pose proof (remove_dups_length_le l) as Hle.
    destruct (decide_rel _ _ _) as [Hin|Hout]; rewrite NoDup_cons.
    + split; [lia | tauto].
    + cbn. rewrite <- IH. split; [intros ?; split; [done | lia] | intros [_ ?]; lia].
Qed.

(** X3. After a successful parse the page shows 0 under "Duplicate Rows"
    exactly when no two rows of the parsed table compare equal (cell by
    cell, a float by its value, missing values as equal). *)
Theorem zero_duplicates_iff_distinct (lib : Lib) (file : list byte)
    (w : Widgets) (df : DataFrame) :
  read_csv lib file = Ok df ->
  (Metric "Duplicate Rows" 0 ∈ out (run lib (Some file) w).2
   <-> NoDup (map row_key (rows df))).
Proof.
  intros H.
  destruct (run_page _ lib file w df H (charts_no_profile _ _ _ _ _))
    as (tr & E & F).
  rewrite E. rewrite Forall_forall in F.
  rewrite <- remove_dups_length_NoDup.
  pose proof (duplicated_from_count (map row_key (rows df)) []) as Hc.
  rewrite app_nil_r in Hc. cbn in Hc. fold (duplicated df) in Hc.
  pose proof (remove_dups_length_le (map row_key (rows df))) as Hle.
  split.
  - intros Hin. apply elem_of_app in Hin as [Hin|Hin].
    + page_cases Hin. injection Hin as Hz. lia.
    + by apply F in Hin.
  - intros Hd. apply elem_of_app. left. unfold loaded_page.
    do 11 apply list_elem_of_further.
    replace (sum_bools (duplicated df)) with 0 by lia. apply list_elem_of_here.
Qed.

Lemma zero_duplicates_iff_distinct_witness :
  read_csv (sample_lib readings) some_file = Ok readings /\
  (Metric "Duplicate Rows" 0
     ∈ out (run (sample_lib readings) (Some some_file) first_choices).2
   <-> NoDup (map row_key (rows readings))).
Proof.
  split; [reflexivity|].
  apply (zero_duplicates_iff_distinct (sample_lib readings) some_file
           first_choices readings).
  reflexivity.
Defined.

Lemma duplicated_flags_witness :
  duplicated zeros !! 1 = Some true /\
  exists j, j < 1 /\ map row_key (rows zeros) !! j = map row_key (rows zeros) !! 1.
Proof.
  split; [reflexivity|].
  apply (proj2 (duplicated_flags zeros) 1 true eq_refl). reflexivity.
Defined.

(** ** Unique values and missing values of a column (lines 51 and 74) *)

Lemma length_present (vs : list cell) :
  length (omap cell_key vs) + sum_bools (map is_null vs) = length vs.
Proof.
  induction vs as [|v vs IH]; [done|].
  cbn [map]. rewrite sum_bools_cons.
  pose proof (is_null_key v) as Hk. cbn [omap list_omap].
  destruct (cell_key v) eqn:Ek, (is_null v); cbn; try lia.
  - destruct Hk as [Hk _]. discriminate (Hk eq_refl).
  - destruct Hk as [_ Hk]. discriminate (Hk eq_refl).
Qed.

(** X4. In the tables of the profile, a column's number of unique values
    and its number of missing values together never exceed its number of
    entries, and the number of unique values is 0 exactly when every entry
    is missing (absent or NaN). *)
Theorem nunique_and_missing (c : Series) :
  nunique c + missing_count c <= length (values c) /\
  (nunique c = 0 <-> Forall (fun v => is_null v = true) (values c)).
Proof.
  unfold nunique, missing_count, isnull. split.
  - pose proof (length_present (values c)).
    pose proof (remove_dups_length_le (omap cell_key (values c))). lia.
  - induction (values c) as [|v vs IH].
    + split; [constructor | done].
    + pose proof (is_null_key v) as Hk. cbn [omap list_omap].
      destruct (cell_key v) as [x|] eqn:Ek.
      * split.
        -- cbn. destruct (decide_rel _ _ _) as [Hin|Hout]; [|done].
           intros Hz. apply length_zero_iff_nil in Hz.
           apply elem_of_remove_dups in Hin. rewrite Hz in Hin.
           by apply elem_of_nil in Hin.
        -- intros HF. apply Forall_cons in HF as [Hn _].
           apply Hk in Hn. discriminate Hn.
      * rewrite IH. split.
        -- intros HF. constructor; [by apply Hk | done].
        -- by intros [_ ?]%Forall_cons.
Qed.

(** ** Order and size of the two column lists (lines 58-59) *)

Lemma selected_names_sublist (include : Dtype -> bool) (df : DataFrame) :
  column_names (select_dtypes include df) `sublist_of` column_names df.
Proof.
  unfold column_names, select_dtypes. cbn [columns].
  change (map name ?l) with (name <$> l).
  apply fmap_sublist, sublist_filter.
Qed.

(** X6. Each of the two lists keeps the order of the table's columns, and
    the lists together with the columns of any other dtype account for every
    column exactly once: their lengths add up to the number of columns. *)
Theorem classification_order_and_count (df : DataFrame) :
  categorical_cols df `sublist_of` column_names df /\
  numeric_cols df `sublist_of` column_names df /\
  length (categorical_cols df) + length (numeric_cols df)
    + length (unclassified_cols df) = length (columns df).
Proof.
  split; [apply selected_names_sublist|]. split; [apply selected_names_sublist|].
  unfold categorical_cols, numeric_cols, unclassified_cols, column_names,
    select_dtypes. cbn [columns]. rewrite !length_map.
  induction (columns df) as [|c l IH]; [done|].
  rewrite !filter_cons.
  destruct (dtype c); repeat (destruct (decide _)); cbn in *; try done; lia.
Qed.

(** ** Selecting columns by name (lines 84 and 199) *)

Lemma filter_by_absent_name (l : list Series) (n : string) :
  n ∉ map name l -> filter (fun c' => name c' = n) l = [].
Proof.
  induction l as [|x l IH]; intros Hn; [done|].
  cbn [map] in Hn. apply not_elem_of_cons in Hn as [Hx Hl].
  rewrite filter_cons_False by (intros E; by apply Hx). by apply IH.
Qed.

Lemma filter_by_own_name (l : list Series) (c : Series) :
  NoDup (map name l) -> c ∈ l -> filter (fun c' => name c' = name c) l = [c].
Proof.
  induction l as [|x l IH]; intros Hnd Hc; [by apply elem_of_nil in Hc|].
  cbn [map] in Hnd. apply NoDup_cons in Hnd as [Hx Hnd].
  apply elem_of_cons in Hc as [->|Hc].
  - rewrite filter_cons_True by done. f_equal. by apply filter_by_absent_name.
  - rewrite filter_cons_False; [by apply IH|].
    intros E. apply Hx. rewrite E.
    change (map name l) with (name <$> l). by apply list_elem_of_fmap_2.
Qed.

Lemma getitem_own_columns (d : DataFrame) (l : list Series) :
  NoDup (column_names d) -> l ⊆ columns d ->
  flat_map (fun n => filter (fun c => name c = n) (columns d)) (map name l) = l.
Proof.
  intros Hnd. induction l as [|c l IH]; intros Hsub; [done|].
  cbn [map flat_map]. rewrite filter_by_own_name; [|done|].
  - cbn. f_equal. apply IH. intros x Hx. apply Hsub. by right.
  - apply Hsub. by left.
Qed.

(** X7. When the column names are distinct, selecting the numeric columns by
    name gives back exactly the numeric columns, in table order, with the
    same index: the table that is described (line 84) and correlated
    (line 199) is [select_dtypes(include=np.number)]; likewise for the
    categorical names. *)
Theorem selection_by_name (df : DataFrame) :
  NoDup (column_names df) ->
  getitem_cols df (numeric_cols df) = select_dtypes is_number df /\
  getitem_cols df (categorical_cols df)
  = select_dtypes is_object_or_category df.
Proof.
  intros Hnd. unfold getitem_cols, numeric_cols, categorical_cols, column_names.
  unfold select_dtypes at 1 3. cbn [columns index_len].
  split; unfold select_dtypes; f_equal; apply getitem_own_columns; try done;
    intros x Hx; by apply list_elem_of_filter in Hx as [_ ?].
Qed.

Lemma selection_by_name_witness :
  NoDup (column_names sales) /\
  getitem_cols sales (numeric_cols sales) = select_dtypes is_number sales /\
  getitem_cols sales (categorical_cols sales)
  = select_dtypes is_object_or_category sales.
Proof.
  assert (Hnd : NoDup (column_names sales)).
  { cbn. repeat (apply NoDup_cons; split;
                 [rewrite ?elem_of_cons, elem_of_nil; intuition discriminate|]).
    apply NoDup_nil_2. }
  split; [exact Hnd|]. apply (selection_by_name sales Hnd).
Defined.

(** ** A program logic for the sections *)

Section Spec.

Context (d0 : DataFrame) (P : Event -> Prop).

Lemma spec_conseq {A : Type} (m : M A) (Q Q' : Result A -> Prop) :
  spec d0 P m Q -> (forall r, Q r -> Q' r) -> spec d0 P m Q'.
Proof.
  intros H HQ s Hs. destruct (H s Hs) as (Hh & Ht & Hq). auto.
Qed.

Lemma spec_silent {A : Type} (m : M A) (r : Result A) :
  (forall s, m s = (r, s)) -> spec d0 P m (fun r' => r' = r).
Proof.
  intros H s Hs. rewrite H. cbn. split; [done|]. split; [|done].
  exists []. by rewrite app_nil_r.
Qed.

Lemma spec_ret {A : Type} (a : A) : spec d0 P (mret a) (fun r => r = Ok a).
Proof. by apply spec_silent. Qed.

Lemma spec_lift {A : Type} (r0 : Result A) : spec d0 P (lift r0) (fun r => r = r0).
Proof. by apply spec_silent. Qed.

Lemma spec_emit (e : Event) : P e -> spec d0 P (emit e) (fun r => r = Ok tt).
Proof.
  intros He s Hs. cbn. split; [done|]. split; [|done]. exists [e]. auto.
Qed.

(** Reading [df] gives the table as parsed. *)
Lemma spec_get_df : spec d0 P (get 0) (fun r => r = Ok d0).
Proof.
  intros s Hs. unfold get. rewrite Hs. cbn. split; [done|]. split; [|done].
  exists []. by rewrite app_nil_r.
Qed.

Lemma spec_selectbox label options key choice :
  P (Selectbox label options key) ->
  spec d0 P (selectbox label options key choice)
       (fun r => r = Ok (chosen options choice)).
Proof.
  intros He s Hs. cbn. split; [done|]. split; [|done].
  exists [Selectbox label options key]. auto.
Qed.

Lemma spec_px (lib : Lib) (f : Fig) :
  spec d0 P (px lib f)
       (fun r => r = match build lib f with Some e => Raise e | None => Ok f end).
Proof.
  intros s Hs. unfold px. destruct (build lib f); cbn;
    (split; [done|]; split; [|done]; exists []; by rewrite app_nil_r).
Qed.

Lemma spec_plotly_chart (lib : Lib) (f : Fig) :
  (display lib f = None -> P (PlotlyChart f)) ->
  spec d0 P (plotly_chart lib f)
       (fun r => r = match display lib f with Some e => Raise e | None => Ok tt end).
Proof.
  intros He s Hs. unfold plotly_chart. destruct (display lib f); cbn.
  - split; [done|]. split; [|done]. exists []. by rewrite app_nil_r.
  - split; [done|]. split; [|done]. exists [PlotlyChart f]. auto.
Qed.

Lemma spec_pyplot (lib : Lib) (f : Fig) :
  (display lib f = None -> P (Pyplot f)) ->
  spec d0 P (pyplot lib f)
       (fun r => r = match display lib f with Some e => Raise e | None => Ok tt end).
Proof.
  intros He s Hs. unfold pyplot. destruct (display lib f); cbn.
  - split; [done|]. split; [|done]. exists []. by rewrite app_nil_r.
  - split; [done|]. split; [|done]. exists [Pyplot f]. auto.
Qed.

Lemma spec_bind {A B : Type} (m : M A) (f : A -> M B)
    (Q1 : Result A -> Prop) (Q2 : Result B -> Prop) :
  spec d0 P m Q1 ->
  (forall a, Q1 (Ok a) -> spec d0 P (f a) Q2) ->
  (forall e, Q1 (Raise e) -> Q2 (Raise e)) ->
  spec d0 P (m ≫= f) Q2.
Proof.
  intros Hm Hf Hr s Hs. rewrite bind_run.
  destruct (Hm s Hs) as (Hh & (tr & Eo & Ft) & Hq).
  destruct (m s) as [[a|e] s'] eqn:E; cbn in *.
  - destruct (Hf a Hq s' Hh) as (Hh' & (tr' & Eo' & Ft') & Hq').
    split; [done|]. split; [|done].
    exists (tr ++ tr'). rewrite Eo', Eo, app_assoc. split; [done|].
    by apply Forall_app.
  - split; [done|]. split; [eauto | auto].
Qed.

Lemma spec_try (body : M unit) (handler : Exn -> M unit)
    (Q1 Q2 : Result unit -> Prop) :
  spec d0 P body Q1 ->
  (forall e, Q1 (Raise e) -> spec d0 P (handler e) Q2) ->
  (Q1 (Ok tt) -> Q2 (Ok tt)) ->
  spec d0 P (try_except body handler) Q2.
Proof.
  intros Hb Hh Hok s Hs. unfold try_except.
  destruct (Hb s Hs) as (Hheap & (tr & Eo & Ft) & Hq).
  destruct (body s) as [[[]|e] s'] eqn:E; cbn in *.
  - split; [done|]. split; [eauto | auto].
  - destruct (Hh e Hq s' Hheap) as (Hh' & (tr' & Eo' & Ft') & Hq').
    split; [done|]. split; [|done].
    exists (tr ++ tr'). rewrite Eo', Eo, app_assoc. split; [done|].
    by apply Forall_app.
Qed.

End Spec.

(** *** New objects of the store *)

(** A table bound to a name and read back is the table. *)
Lemma alloc_get_run {B : Type} (t : DataFrame) (k : DataFrame -> M B) (s : State) :
  (alloc t ≫= fun r => get r ≫= k) s
  = k t (mkState (heap s ++ [t]) (out s)).
Proof.
  rewrite bind_run. cbn. rewrite bind_run. unfold get. cbn.
  by rewrite list_lookup_middle.
Qed.

(** A table bound to a name, given new column names and read back: the
    renamed table when there is one name per column, else the assignment
    raises and the new object stays as it was. *)
Lemma alloc_set_get_run {B : Type} (t : DataFrame) (names : list string)
    (k : DataFrame -> M B) (s : State) :
  (alloc t ≫= fun r => set_columns r names ≫= fun _ => get r ≫= k) s
  = if decide (length names = length (columns t))
    then k (rename t names) (mkState (heap s ++ [rename t names]) (out s))
    else (Raise (length_mismatch (length (columns t)) (length names)),
          mkState (heap s ++ [t]) (out s)).
Proof.
  rewrite bind_run. cbn. rewrite bind_run. unfold set_columns. cbn.
  rewrite list_lookup_middle by done.
  destruct (decide _) as [E|E]; [|done]. cbn.
  rewrite bind_run. unfold get. cbn.
  rewrite list_lookup_insert_eq by (rewrite length_app; cbn; lia).
  f_equal. f_equal.
  change (heap s ++ [t]) with (heap s ++ t :: []).
  replace (length (heap s)) with (length (heap s) + 0) by lia.
  by rewrite insert_app_r.
Qed.

Section SpecStore.

Context (d0 : DataFrame) (P : Event -> Prop).

Lemma spec_alloc_get {B : Type} (t : DataFrame) (k : DataFrame -> M B)
    (Q : Result B -> Prop) :
  spec d0 P (k t) Q -> spec d0 P (alloc t ≫= fun r => get r ≫= k) Q.
Proof.
  intros Hk s Hs. rewrite alloc_get_run.
  destruct (Hk (mkState (heap s ++ [t]) (out s))) as (Hh & Ht & Hq).
  { cbn. by apply lookup_app_l_Some. }
  auto.
Qed.

Lemma spec_alloc_set_get {B : Type} (t : DataFrame) (names : list string)
    (k : DataFrame -> M B) (Q : Result B -> Prop) :
  (length names = length (columns t) -> spec d0 P (k (rename t names)) Q) ->
  (length names <> length (columns t) ->
   Q (Raise (length_mismatch (length (columns t)) (length names)))) ->
  spec d0 P (alloc t ≫= fun r => set_columns r names ≫= fun _ => get r ≫= k) Q.
Proof.
  intros Hk Hbad s Hs. rewrite alloc_set_get_run.
  destruct (decide _) as [E|E].
  - destruct (Hk E (mkState (heap s ++ [rename t names]) (out s)))
      as (Hh & Ht & Hq); [cbn; by apply lookup_app_l_Some | auto].
  - cbn. split; [by apply lookup_app_l_Some|]. split; [|auto].
    exists []. by rewrite app_nil_r.
Qed.

End SpecStore.
(** Walks through a section: [side] settles what is asked of each element
    shown, [post] what is asked of a result that is an exception, and [mid]
    is what is kept of the result of a compound step. *)
Ltac spec_prim side :=
  first
    [ apply spec_ret
    | apply spec_lift
    | apply spec_get_df
    | apply spec_px
    | apply spec_emit; side
    | apply spec_selectbox; side
    | apply spec_plotly_chart; side
    | apply spec_pyplot; side ].

Ltac spec_result H :=
  cbn beta in H;
  first
    [ discriminate H
    | injection H as H; subst
    | match type of H with
      | _ = match ?x with _ => _ end =>
          destruct x eqn:?; first [discriminate H | injection H as H; subst]
      end
    | symmetry in H ].

Ltac spec_walk side post mid :=
  repeat lazymatch goal with
  | |- spec _ _ (alloc _ ≫= _) _ =>
      first
        [ apply spec_alloc_set_get; [intros ? | intros ?; post]
        | apply spec_alloc_get ]
  | |- spec _ _ ((if ?b then _ else _) ≫= _) _ => destruct b eqn:?
  | |- spec _ _ (_ ≫= _) _ =>
      first
        [ eapply spec_bind;
          [ spec_prim side
          | let H := fresh "Hres" in intros ? H; spec_result H
          | let H := fresh "Hres" in
            intros ? H; cbn beta in H; first [discriminate H | post] ]
        | eapply (spec_bind _ _ _ _ mid);
          [ | intros ? _
            | let H := fresh "Hres" in intros ? H; cbn beta in H; post ] ]
  | |- spec _ _ (try_except _ _) _ =>
      eapply (spec_try _ _ _ _ mid);
      [ | let H := fresh "Hres" in
          intros ? H; cbn beta in H; try discriminate H
        | intros _; post ]
  | |- spec _ _ (if ?b then _ else _) _ => destruct b eqn:?
  | |- spec _ _ _ _ =>
      eapply spec_conseq;
      [ spec_prim side
      | let H := fresh "Hres" in intros ? H; cbn beta in H; post ]
  end.

(** ** Where the charts come from *)

Lemma chosen_in (options : list string) (choice : nat) :
  options <> [] -> chosen options choice ∈ options.
Proof.
  intros Hne. unfold chosen. destruct (options !! choice) as [x|] eqn:E; cbn.
  - by apply list_elem_of_lookup_2 in E.
  - destruct options; [done|]. cbn. apply list_elem_of_here.
Qed.

Lemma truthy_nonempty {A : Type} (l : list A) : truthy l = true -> l <> [].
Proof. by destruct l. Qed.

Lemma ltb_nonempty {A : Type} (l : list A) : Nat.ltb 0 (length l) = true -> l <> [].
Proof. by destruct l. Qed.

(** The guards of the sections, as facts about the two lists. *)
Ltac guards :=
  repeat match goal with
         | H : _ && _ = true |- _ => apply andb_prop in H as [? ?]
         end;
  repeat match goal with
         | H : truthy _ = true |- _ => apply truthy_nonempty in H
         | H : Nat.ltb 0 (length _) = true |- _ => apply ltb_nonempty in H
         | H : Nat.ltb 1 (length _) = true |- _ => apply Nat.ltb_lt in H
         | H : length [_; _] = length _ |- _ => cbn in H; symmetry in H
         end.

(** Settles [chart_ok] of a figure from the guards and the results of the
    calls before it. *)
Ltac chart_solve :=
  unfold chart_ok; cbn; guards;
  first
    [ by repeat (first [split | eexists]); eauto using chosen_in
    | split; [by apply chosen_in|]; left;
      by repeat (first [split | eexists]); eauto using chosen_in
    | split; [by apply chosen_in|]; right;
      by repeat (first [split | eexists]); eauto using chosen_in ].

Ltac chart_side := first [ cbn; exact I | intros _; chart_solve ].

Lemma charts_chart_ok (lib : Lib) (w : Widgets) (df : DataFrame) :
  spec df (chart_ok lib df)
       (charts lib w 0 (categorical_cols df) (numeric_cols df))
       (fun _ => True).
Proof.
  unfold_sections.
  spec_walk ltac:(chart_side) ltac:(exact I) (fun _ : Result unit => True).
Qed.

Lemma page_chart_ok (lib : Lib) (file : list byte) (w : Widgets)
    (df : DataFrame) :
  read_csv lib file = Ok df ->
  Forall (chart_ok lib df) (out (run lib (Some file) w).2).
Proof.
  intros H. rewrite (run_loaded _ _ _ _ H).
  destruct (charts_chart_ok lib w df (mkState [df] (loaded_page df)) eq_refl)
    as (_ & (tr & E & F) & _).
  rewrite E. apply Forall_app. split; [|exact F].
  cbn [out]. unfold loaded_page.
  repeat (apply Forall_cons; split; [exact I|]). constructor.
Qed.

(** *** Assigning column names (lines 101 and 183) *)

Lemma rename_names (t : DataFrame) (names : list string) :
  length names = length (columns t) -> column_names (rename t names) = names.
Proof.
  intros E. unfold column_names, rename. cbn [columns].
  change (map name ?l) with (name <$> l).
  apply fmap_zip_with_l; [done | lia].
Qed.

Lemma map_zip_with_r {A B C D : Type} (f : A -> B -> C) (g : C -> D)
    (g' : B -> D) (l : list A) (k : list B) :
  (forall x y, g (f x y) = g' y) -> length k <= length l ->
  map g (zip_with f l k) = map g' k.
Proof.
  intros Hg. revert l. induction k as [|y k IH]; intros [|x l] Hl; cbn in *;
    try done; try lia.
  rewrite Hg, IH by lia. done.
Qed.

Lemma rename_data (t : DataFrame) (names : list string) :
  length names = length (columns t) ->
  map dtype (columns (rename t names)) = map dtype (columns t) /\
  map values (columns (rename t names)) = map values (columns t) /\
  index_len (rename t names) = index_len t.
Proof.
  intros E. unfold rename. cbn [columns index_len].
  repeat split; apply map_zip_with_r; (done || lia).
Qed.

(** X8. Assigning to the columns of a stored table, as lines 101 and 183 do.
    When the assignment returns, there was one name per column, the table
    now has exactly the new names with the dtypes, the values and the index
    it had, every other object of the store is as before and the page is
    unchanged. When it raises, the number of names differed from the number
    of columns, the exception is pandas' "Length mismatch: Expected axis has
    m elements, new values have n elements" for m columns and n names, and
    the store and the page are unchanged. *)
Theorem set_columns_spec (s : State) (r : nat) (d : DataFrame)
    (names : list string) :
  heap s !! r = Some d ->
  match set_columns r names s with
  | (Ok _, s') =>
      length names = length (columns d) /\
      out s' = out s /\
      length (heap s') = length (heap s) /\
      (forall r', r' <> r -> heap s' !! r' = heap s !! r') /\
      exists d', heap s' !! r = Some d' /\
                 column_names d' = names /\
                 map dtype (columns d') = map dtype (columns d) /\
                 map values (columns d') = map values (columns d) /\
                 index_len d' = index_len d
  | (Raise e, s') =>
      length names <> length (columns d) /\
      e = ("Length mismatch: Expected axis has "
           ++ NilEmpty.string_of_uint (Nat.to_uint (length (columns d)))
           ++ " elements, new values have "
           ++ NilEmpty.string_of_uint (Nat.to_uint (length names))
           ++ " elements")%string /\
      s' = s
  end.
Proof.
  intros Hr. unfold set_columns. rewrite Hr.
  destruct (decide (length names = length (columns d))) as [E|E].
  - split; [done|]. cbn [heap out]. split; [done|].
    split; [by rewrite length_insert|].
    split; [intros r' Hne; by apply list_lookup_insert_ne|].
    exists (rename d names). split.
    { apply list_lookup_insert_eq. by eapply lookup_lt_Some. }
    split; [by apply rename_names|]. by apply rename_data.
  - done.
Qed.

Lemma set_columns_spec_witness :
  heap (mkState [tally; readings] []) !! 1 = Some readings /\
  (set_columns 1 ["time"; "value"] (mkState [tally; readings] [])).1 = Ok tt /\
  (exists d', heap (set_columns 1 ["time"; "value"]
                      (mkState [tally; readings] [])).2 !! 1 = Some d' /\
              column_names d' = ["time"; "value"]) /\
  set_columns 1 ["time"] (mkState [tally; readings] [])
  = (Raise "Length mismatch: Expected axis has 2 elements, new values have 1 elements",
     mkState [tally; readings] []).
Proof.
  pose proof (set_columns_spec (mkState [tally; readings] []) 1 readings
                ["time"; "value"] eq_refl) as Hok.
  pose proof (set_columns_spec (mkState [tally; readings] []) 1 readings
                ["time"] eq_refl) as Hbad.
  split; [reflexivity|].
  destruct (set_columns 1 ["time"; "value"] (mkState [tally; readings] []))
    as [[u|e] s1] eqn:E1; [|discriminate E1].
  destruct (set_columns 1 ["time"] (mkState [tally; readings] []))
    as [[u'|e'] s2] eqn:E2; [discriminate E2|].
  destruct Hok as (_ & _ & _ & _ & d' & Hd & Hn & _).
  destruct Hbad as (_ & -> & ->).
  split; [by destruct u|]. split; [by exists d'|]. reflexivity.
Defined.

(** *** The charts on the page *)

(** X9. After a successful parse, every histogram and every boxplot on the
    page is drawn from the table as parsed, over one of its numeric columns,
    and is titled after that column, whatever the widgets hold. *)
Theorem histogram_and_boxplot_source (lib : Lib) (file : list byte)
    (w : Widgets) (df : DataFrame) :
  read_csv lib file = Ok df ->
  (forall d x t,
     PlotlyChart (Histogram d x t) ∈ out (run lib (Some file) w).2 ->
     d = df /\ x ∈ numeric_cols df /\ t = ("Distribution of " ++ x)%string) /\
  (forall d y t,
     PlotlyChart (Box d y t) ∈ out (run lib (Some file) w).2 ->
     d = df /\ y ∈ numeric_cols df /\ t = ("Outliers in " ++ y)%string).
Proof.
  intros H. pose proof (page_chart_ok lib file w df H) as F.
  rewrite Forall_forall in F.
  split; intros d x t Hin; exact (F _ Hin).
Qed.

Lemma histogram_and_boxplot_source_witness :
  read_csv (sample_lib sales) some_file = Ok sales /\
  PlotlyChart (Histogram sales "amount" "Distribution of amount")
    ∈ out (run (sample_lib sales) (Some some_file) first_choices).2 /\
  "amount" ∈ numeric_cols sales.
Proof.
  assert (Hin : PlotlyChart (Histogram sales "amount" "Distribution of amount")
                  ∈ out (run (sample_lib sales) (Some some_file) first_choices).2).
  { set (page := out _). vm_compute in page. subst page.
    repeat first [apply list_elem_of_here | apply list_elem_of_further]. }
  split; [reflexivity|]. split; [exact Hin|].
  destruct (histogram_and_boxplot_source (sample_lib sales) some_file
              first_choices sales eq_refl) as [Hh _].
  exact (proj1 (proj2 (Hh _ _ _ Hin))).
Defined.

(** X10. After a successful parse, every bar chart without colour on the
    page (the value-count bar of line 102) is vertical, plots "Count"
    against a categorical column of the parsed table, and its data are the
    value counts of that column of the table as parsed, with the two columns
    named after the column and "Count". *)
Theorem value_count_bar_source (lib : Lib) (file : list byte) (w : Widgets)
    (df : DataFrame) :
  read_csv lib file = Ok df ->
  forall data x y h title labels,
    PlotlyChart (Bar data x y h title labels None)
      ∈ out (run lib (Some file) w).2 ->
    x ∈ categorical_cols df /\ y = "Count" /\ h = false /\
    column_names data = [x; "Count"] /\
    exists t, value_counts lib df x = Ok t /\ data = rename t [x; "Count"].
Proof.
  intros H data x y h title labels Hin.
  pose proof (page_chart_ok lib file w df H) as F.
  rewrite Forall_forall in F.
  destruct (F _ Hin) as (Hx & Hy & Hh & t & Ht & Hl & ->).
  repeat split; try done; [by apply rename_names | eauto].
Qed.

Lemma value_count_bar_source_witness :
  read_csv (sample_lib sales) some_file = Ok sales /\
  exists data,
    PlotlyChart (Bar data "region" "Count" false "Value Counts of region"
                     [("region", "region"); ("Count", "Count")] None)
      ∈ out (run (sample_lib sales) (Some some_file) first_choices).2 /\
    column_names data = ["region"; "Count"].
Proof.
  split; [reflexivity|].
  exists (rename (mkFrame 0 [mkSeries "region" object_ [];
                             mkSeries "count" int64 []]) ["region"; "Count"]).
  assert (Hin : PlotlyChart
                  (Bar (rename (mkFrame 0 [mkSeries "region" object_ [];
                                           mkSeries "count" int64 []])
                               ["region"; "Count"])
                       "region" "Count" false "Value Counts of region"
                       [("region", "region"); ("Count", "Count")] None)
                  ∈ out (run (sample_lib sales) (Some some_file) first_choices).2).
  { set (page := out _). vm_compute in page. subst page.
    repeat first [apply list_elem_of_here | apply list_elem_of_further]. }
  split; [exact Hin|].
  destruct (value_count_bar_source (sample_lib sales) some_file first_choices
              sales eq_refl _ _ _ _ _ _ Hin) as (_ & _ & _ & Hn & _).
  exact Hn.
Defined.

(** X11. After a successful parse, every coloured bar chart on the page (the
    grouped bar of lines 125-135) shows the sums of a numeric column of the
    parsed table by one of its categorical columns, is coloured by that
    numeric column, and has the category on the x axis when vertical and on
    the y axis when horizontal; every donut shows such sums by category. *)
Theorem grouped_charts_source (lib : Lib) (file : list byte) (w : Widgets)
    (df : DataFrame) :
  read_csv lib file = Ok df ->
  (forall data x y h title labels c,
     PlotlyChart (Bar data x y h title labels (Some c))
       ∈ out (run lib (Some file) w).2 ->
     exists xc yc,
       xc ∈ categorical_cols df /\ yc ∈ numeric_cols df /\ c = yc /\
       groupby_sum lib df xc yc = Ok data /\
       (x, y) = if h then (yc, xc) else (xc, yc)) /\
  (forall data names vals title q,
     PlotlyChart (Pie data names vals title (Some q))
       ∈ out (run lib (Some file) w).2 ->
     names ∈ categorical_cols df /\ vals ∈ numeric_cols df /\
     groupby_sum lib df names vals = Ok data).
Proof.
  intros H. pose proof (page_chart_ok lib file w df H) as F.
  rewrite Forall_forall in F. split.
  - intros data x y h title labels c Hin. exact (F _ Hin).
  - intros data names vals title q Hin.
    destruct (F _ Hin) as (Hn & [[Hv Hg]|(_ & Hq & _)]); [done | discriminate Hq].
Qed.

Lemma grouped_charts_source_witness :
  read_csv (sample_lib sales) some_file = Ok sales /\
  PlotlyChart
    (Bar (mkFrame 0 [mkSeries "region" object_ []; mkSeries "amount" float64 []])
         "amount" "region" true "amount by region" [] (Some "amount"))
    ∈ out (run (sample_lib sales) (Some some_file)
               (mkWidgets 0 0 0 0 1 0 0 0 0 0)).2 /\
  exists xc yc,
    xc ∈ categorical_cols sales /\ yc ∈ numeric_cols sales /\
    ("amount", "region") = (yc, xc).
Proof.
  assert (Hin : PlotlyChart
                  (Bar (mkFrame 0 [mkSeries "region" object_ [];
                                   mkSeries "amount" float64 []])
                       "amount" "region" true "amount by region" []
                       (Some "amount"))
                  ∈ out (run (sample_lib sales) (Some some_file)
                             (mkWidgets 0 0 0 0 1 0 0 0 0 0)).2).
  { set (page := out _). vm_compute in page. subst page.
    repeat first [apply list_elem_of_here | apply list_elem_of_further]. }
  split; [reflexivity|]. split; [exact Hin|].
  destruct (grouped_charts_source (sample_lib sales) some_file
              (mkWidgets 0 0 0 0 1 0 0 0 0 0) sales eq_refl) as [Hb _].
  destruct (Hb _ _ _ _ _ _ _ Hin) as (xc & yc & Hx & Hy & _ & _ & Hxy).
  exists xc, yc. auto.
Defined.

(** X12. After a successful parse, whatever goes through [st.pyplot] is the
    heatmap of [df[numeric_cols].corr()]: the correlation of exactly the
    numeric columns of the table as parsed, of which there are at least
    two. *)
Theorem heatmap_source (lib : Lib) (file : list byte) (w : Widgets)
    (df : DataFrame) :
  read_csv lib file = Ok df ->
  forall f, Pyplot f ∈ out (run lib (Some file) w).2 ->
    exists c, f = Heatmap c /\
              corr lib (getitem_cols df (numeric_cols df)) = Ok c /\
              2 <= length (numeric_cols df).
Proof.
  intros H f Hin. pose proof (page_chart_ok lib file w df H) as F.
  rewrite Forall_forall in F. specialize (F _ Hin).
  destruct f; try done. destruct F as [Hn Hc]. eauto.
Qed.

Lemma heatmap_source_witness :
  read_csv (sample_lib sales) some_file = Ok sales /\
  Pyplot (Heatmap (getitem_cols sales (numeric_cols sales)))
    ∈ out (run (sample_lib sales) (Some some_file) first_choices).2 /\
  corr (sample_lib sales) (getitem_cols sales (numeric_cols sales))
  = Ok (getitem_cols sales (numeric_cols sales)).
Proof.
  assert (Hin : Pyplot (Heatmap (getitem_cols sales (numeric_cols sales)))
                  ∈ out (run (sample_lib sales) (Some some_file) first_choices).2).
  { set (page := out _). vm_compute in page.
    set (f := Pyplot _). vm_compute in f. subst page f.
    repeat first [apply list_elem_of_here | apply list_elem_of_further]. }
  split; [reflexivity|]. split; [exact Hin|].
  destruct (heatmap_source (sample_lib sales) some_file first_choices sales
              eq_refl _ Hin) as (c & Hc & Hcorr & _).
  injection Hc as <-. exact Hcorr.
Defined.

(** ** The sections of a page *)

Lemma titles_app (a b : list Event) : titles (a ++ b) = titles a ++ titles b.
Proof. apply omap_app. Qed.

Lemma titles_no_title (tr : list Event) : Forall no_title tr -> titles tr = [].
Proof.
  induction 1 as [|e tr He _ IH]; [done|].
  unfold titles in *. cbn. destruct e; try done.
Qed.

(** A section: its title, then a body that shows no title. *)
Lemma titled_section (d0 : DataFrame) (t : string) (b : bool) (body : M unit)
    (Q : Result unit -> Prop) :
  spec d0 no_title body Q ->
  (b = false -> forall e, ~ Q (Raise e)) ->
  run_spec d0 [(t, b)] (emit (Subheader t) ≫= fun _ => body).
Proof.
  intros Hb Hq s Hs. rewrite bind_run.
  change (emit (Subheader t) s) with (Ok tt, after_subheader t s). cbn iota.
  destruct (Hb (after_subheader t s) Hs) as (Hh & (tr & E & F) & HQ).
  split; [done|]. exists (Subheader t :: tr). split.
  { rewrite E. cbn. by rewrite <- app_assoc. }
  assert (Ht : titles (Subheader t :: tr) = [t]).
  { change (Subheader t :: tr) with ([Subheader t] ++ tr).
    by rewrite titles_app, (titles_no_title tr F). }
  destruct (body (after_subheader t s)).1 as [[]|e]; [done|].
  destruct b; [|by destruct (Hq eq_refl e)].
  exists [], t, []. done.
Qed.

Lemma run_spec_seq (d0 : DataFrame) (L1 L2 : list (string * bool))
    (m1 m2 : M unit) :
  run_spec d0 L1 m1 -> run_spec d0 L2 m2 ->
  run_spec d0 (L1 ++ L2) (m1 ≫= fun _ => m2).
Proof.
  intros H1 H2 s Hs. rewrite bind_run.
  destruct (H1 s Hs) as (Hh & tr & E & Ht).
  destruct (m1 s) as [[[]|e] s'] eqn:Em; cbn in *.
  - destruct (H2 s' Hh) as (Hh' & tr' & E' & Ht').
    split; [done|]. exists (tr ++ tr'). split; [by rewrite E', E, app_assoc|].
    rewrite titles_app, Ht. destruct (m2 s').1 as [[]|e].
    + by rewrite Ht', map_app.
    + destruct Ht' as (A & t & B & -> & Ht').
      exists (L1 ++ A), t, B. split; [by rewrite <- app_assoc|].
      by rewrite Ht', map_app, <- app_assoc.
  - split; [done|]. exists tr. split; [done|].
    destruct Ht as (A & t & B & -> & Ht).
    exists A, t, (B ++ L2). split; [by rewrite <- app_assoc|]. done.
Qed.

Ltac section_walk Q :=
  apply (titled_section _ _ _ _ Q);
  [ spec_walk ltac:(intros; exact I) ltac:(done) (fun _ : Result unit => True)
  | try (intros _ ? ?; discriminate); try discriminate ].

Lemma charts_run_spec (lib : Lib) (w : Widgets) (d0 : DataFrame)
    (cat num : list string) :
  run_spec d0 chart_sections (charts lib w 0 cat num).
Proof.
  unfold charts, chart_sections.
  repeat match goal with
         | |- run_spec _ (?x :: ?y :: ?l) (_ ≫= _) =>
             change (x :: y :: l) with ([x] ++ y :: l);
             apply run_spec_seq
         end.
  - unfold statistics. section_walk (fun r : Result unit => r = Ok tt).
  - unfold univariate, histogram, value_count_bar.
    section_walk (fun _ : Result unit => True).
  - unfold dynamic_bar, dynamic_bar_body.
    section_walk (fun r : Result unit => r = Ok tt).
  - unfold dynamic_pie, dynamic_pie_body.
    section_walk (fun r : Result unit => r = Ok tt).
  - unfold count_pie, count_pie_body.
    section_walk (fun r : Result unit => r = Ok tt).
  - unfold heatmap. section_walk (fun _ : Result unit => True).
  - unfold outlier. section_walk (fun _ : Result unit => True).
  - unfold download. section_walk (fun r : Result unit => r = Ok tt).
Qed.

Lemma page_sections (lib : Lib) (file : list byte) (w : Widgets)
    (df : DataFrame) :
  read_csv lib file = Ok df ->
  exists tr,
    titles (out (run lib (Some file) w).2) = profile_titles ++ titles tr /\
    match (run lib (Some file) w).1 with
    | Ok _ => titles tr = map fst chart_sections
    | Raise _ =>
        exists L1 t L2, chart_sections = L1 ++ (t, true) :: L2 /\
                        titles tr = map fst L1 ++ [t]
    end.
Proof.
  intros H. rewrite (run_loaded _ _ _ _ H).
  destruct (charts_run_spec lib w df (categorical_cols df) (numeric_cols df)
              (mkState [df] (loaded_page df)) eq_refl) as (_ & tr & E & Ht).
  exists tr. split; [|exact Ht]. rewrite E. cbn [out]. by rewrite titles_app.
Qed.

(** X13. After a successful parse the section titles on the page are always
    an initial stretch of the thirteen titles in source order, each once;
    when the render pass completes they are all thirteen. *)
Theorem section_titles_in_order (lib : Lib) (file : list byte) (w : Widgets)
    (df : DataFrame) :
  read_csv lib file = Ok df ->
  titles (out (run lib (Some file) w).2) `prefix_of` section_titles /\
  ((run lib (Some file) w).1 = Ok tt ->
   titles (out (run lib (Some file) w).2) = section_titles).
Proof.
  intros H. destruct (page_sections lib file w df H) as (tr & -> & Ht).
  unfold section_titles.
  destruct (run lib (Some file) w).1 as [[]|e].
  - rewrite Ht. split; [done|]. by intros _.
  - destruct Ht as (L1 & t & L2 & -> & ->). split; [|discriminate].
    apply prefix_app. rewrite map_app. apply prefix_app. cbn.
    by apply prefix_cons, prefix_nil.
Qed.

Lemma section_titles_in_order_witness :
  read_csv (sample_lib sales) some_file = Ok sales /\
  (run (sample_lib sales) (Some some_file) first_choices).1 = Ok tt /\
  titles (out (run (sample_lib sales) (Some some_file) first_choices).2)
  = section_titles.
Proof.
  split; [reflexivity|]. split; [reflexivity|].
  apply (section_titles_in_order (sample_lib sales) some_file first_choices sales);
    reflexivity.
Defined.

(** X14. After a successful parse a render pass can only be ended by an
    exception inside the univariate analysis, the correlation heatmap or the
    outlier detection: when the pass raises, the last section title on the
    page is one of these three. The three sections written inside [try]
    never end the pass, and neither do the statistics and the download,
    whose calls ([describe], [to_csv], the plain display calls) are taken
    not to raise. *)
Theorem faults_only_from_unguarded_sections (lib : Lib) (file : list byte)
    (w : Widgets) (df : DataFrame) (e : Exn) :
  read_csv lib file = Ok df ->
  (run lib (Some file) w).1 = Raise e ->
  exists t, last (titles (out (run lib (Some file) w).2)) = Some t /\
            t ∈ ["📊 Univariate Analysis"; "🔥 Correlation Heatmap";
                 "🚨 Outlier Detection"].
Proof.
  intros H Hr. destruct (page_sections lib file w df H) as (tr & -> & Ht).
  rewrite Hr in Ht. destruct Ht as (L1 & t & L2 & EL & ->).
  exists t. split; [by rewrite !app_assoc, last_snoc|].
  assert (Hin : (t, true) ∈ chart_sections).
  { rewrite EL. apply elem_of_app. right. apply list_elem_of_here. }
  unfold chart_sections in Hin.
  repeat (apply elem_of_cons in Hin as [Hin|Hin];
          [first [discriminate Hin | injection Hin as ->] |]).
  - do 0 apply list_elem_of_further. apply list_elem_of_here.
  - do 1 apply list_elem_of_further. apply list_elem_of_here.
  - do 2 apply list_elem_of_further. apply list_elem_of_here.
  - by apply elem_of_nil in Hin.
Qed.

Lemma faults_only_from_unguarded_sections_witness :
  read_csv (sample_lib tally) some_file = Ok tally /\
  (run (sample_lib tally) (Some some_file) (mkWidgets 0 1 0 0 0 0 0 0 0 0)).1
  = Raise "cannot insert count, already exists" /\
  exists t,
    last (titles (out (run (sample_lib tally) (Some some_file)
                           (mkWidgets 0 1 0 0 0 0 0 0 0 0)).2)) = Some t /\
    t ∈ ["📊 Univariate Analysis"; "🔥 Correlation Heatmap";
         "🚨 Outlier Detection"].
Proof.
  split; [reflexivity|]. split; [reflexivity|].
  apply (faults_only_from_unguarded_sections (sample_lib tally) some_file
           (mkWidgets 0 1 0 0 0 0 0 0 0 0) tally
           "cannot insert count, already exists"); reflexivity.
Defined.

(** ** The profile comes first *)

(** X15. After a successful parse the page begins with the whole profile
    (preview, three metrics, dtype table, the two column lists, missing-value
    table), whatever the widgets hold and whatever fails in the charts. *)
Theorem profile_always_shown (lib : Lib) (file : list byte) (w : Widgets)
    (df : DataFrame) :
  read_csv lib file = Ok df ->
  loaded_page df `prefix_of` out (run lib (Some file) w).2.
Proof.
  intros H.
  destruct (run_page (fun _ => True) lib file w df H) as (tr & E & _).
  { unfold_sections. emits_walk ltac:(exact I). }
  rewrite E. by apply prefix_app_r.
Qed.

Lemma profile_always_shown_witness :
  read_csv (sample_lib tally) some_file = Ok tally /\
  loaded_page tally
    `prefix_of` out (run (sample_lib tally) (Some some_file)
                         (mkWidgets 0 1 0 0 0 0 0 0 0 0)).2.
Proof.
  split; [reflexivity|].
  apply (profile_always_shown (sample_lib tally) some_file
           (mkWidgets 0 1 0 0 0 0 0 0 0 0) tally).
  reflexivity.
Defined.

(** ** The descriptive statistics (lines 82-86) *)

Lemma charts_after_statistics (lib : Lib) (w : Widgets) (df : nat)
    (cat num : list string) (s : State) :
  exists tr,
    out (charts lib w df cat num s).2 = out (statistics lib df num s).2 ++ tr.
Proof.
  unfold charts. rewrite bind_run.
  destruct (statistics lib df num s) as [[[]|e] s1]; cbn [snd].
  - match goal with
    | |- context [?m s1] =>
        assert (Hm : emits_only (fun _ => True) m)
          by (unfold_sections; emits_walk ltac:(exact I));
        destruct (Hm s1) as (tr & E & _)
    end.
    eauto.
  - exists []. by rewrite app_nil_r.
Qed.

Lemma charts_info_guard (lib : Lib) (w : Widgets) (df : nat)
    (cat num : list string) :
  emits_only (fun e => e = Info "No numeric columns found" -> num = [])
             (charts lib w df cat num).
Proof.
  unfold charts, statistics. apply emits_bind.
  - emits_walk ltac:(first [ intros; discriminate
                           | intros _; by destruct num ]).
  - intros _. unfold_sections.
    emits_walk ltac:(intros; discriminate).
Qed.

(** X16. After a successful parse the page shows "No numeric columns found"
    exactly when the table has no numeric column; when it has some, the page
    shows [describe()] of the numeric columns of the table as parsed. *)
Theorem statistics_shown (lib : Lib) (file : list byte) (w : Widgets)
    (df : DataFrame) :
  read_csv lib file = Ok df ->
  (Info "No numeric columns found" ∈ out (run lib (Some file) w).2
   <-> numeric_cols df = []) /\
  (numeric_cols df <> [] ->
   Dataframe (describe lib (getitem_cols df (numeric_cols df)))
     ∈ out (run lib (Some file) w).2).
Proof.
  intros H.
  destruct (run_page _ lib file w df H (charts_info_guard _ _ _ _ _))
    as (tr & E & F).
  rewrite Forall_forall in F.
  rewrite (run_loaded _ _ _ _ H) in *.
  destruct (charts_after_statistics lib w 0 (categorical_cols df)
              (numeric_cols df) (mkState [df] (loaded_page df))) as (tr' & E').
  split; [split|].
  - rewrite E. intros Hin. apply elem_of_app in Hin as [Hin|Hin].
    + page_cases Hin.
    + by apply (F _ Hin).
  - intros Hn. rewrite E'. apply elem_of_app. left.
    unfold statistics. rewrite Hn, bind_run. cbn.
    repeat first [apply list_elem_of_here | apply list_elem_of_further].
  - intros Hn. rewrite E'. apply elem_of_app. left.
    unfold statistics. rewrite bind_run.
    destruct (numeric_cols df) as [|n l] eqn:En; [done|]. cbn.
    repeat first [apply list_elem_of_here | apply list_elem_of_further].
Qed.

Lemma statistics_shown_witness :
  read_csv (sample_lib sales) some_file = Ok sales /\
  numeric_cols sales <> [] /\
  Dataframe (describe (sample_lib sales) (getitem_cols sales (numeric_cols sales)))
    ∈ out (run (sample_lib sales) (Some some_file) first_choices).2.
Proof.
  split; [reflexivity|]. split; [discriminate|].
  apply (statistics_shown (sample_lib sales) some_file first_choices sales
           eq_refl).
  discriminate.
Defined.

(** ** The download button (lines 219-226) *)

Lemma only_when_ok_bind {A B : Type} (P : Event -> Prop) (m : M A)
    (f : A -> M B) :
  emits_only (fun e => ~ P e) m -> (forall a, only_when_ok P (f a)) ->
  only_when_ok P (m ≫= f).
Proof.
  intros Hm Hf s e Hin HP. rewrite bind_run in *.
  destruct (Hm s) as (tr & E & F). rewrite Forall_forall in F.
  destruct (m s) as [[a|x] s'] eqn:Em; cbn [snd] in *.
  - destruct (Hf a s' e Hin HP) as [Hold|Hok]; [|by right].
    rewrite E in Hold. apply elem_of_app in Hold as [?|Htr]; [by left|].
    by destruct (F _ Htr).
  - rewrite E in Hin. apply elem_of_app in Hin as [?|Htr]; [by left|].
    by destruct (F _ Htr).
Qed.

Lemma download_only_when_ok (lib : Lib) (df : nat) :
  only_when_ok is_download (download lib df).
Proof.
  intros s e Hin HP. unfold download in *. rewrite bind_run in *. cbn in *.
  rewrite bind_run in *. unfold get in *. cbn in *.
  destruct (heap s !! df) as [d|]; cbn in *; [right; eauto|].
  apply elem_of_app in Hin as [?|Hin]; [by left|].
  apply list_elem_of_singleton in Hin as ->. done.
Qed.

Lemma charts_download_only_when_ok (lib : Lib) (w : Widgets) (df : nat)
    (cat num : list string) :
  only_when_ok is_download (charts lib w df cat num).
Proof.
  unfold charts.
  do 7 (apply only_when_ok_bind;
        [unfold_sections; emits_walk ltac:(cbn; tauto) | intros _]).
  apply download_only_when_ok.
Qed.

Lemma charts_download_content (lib : Lib) (w : Widgets) (df : DataFrame)
    (cat num : list string) :
  spec df
    (fun e => is_download e ->
              e = DownloadButton "Download CSV"
                    (list_byte_of_string (to_csv lib df))
                    "cleaned_dataset.csv" "text/csv")
    (charts lib w 0 cat num) (fun _ => True).
Proof.
  unfold_sections.
  spec_walk ltac:(first [ by intros []
                        | by intros _ []
                        | by intros _ ])
            ltac:(exact I) (fun _ : Result unit => True).
Qed.

(** X17. After a successful parse a download button is on the page exactly
    when the render pass completes, and then it is the one of line 221: it
    offers the UTF-8 bytes of [to_csv] of the table as parsed, under the
    name cleaned_dataset.csv and the type text/csv. *)
Theorem download_iff_completed (lib : Lib) (file : list byte) (w : Widgets)
    (df : DataFrame) (e : Event) :
  read_csv lib file = Ok df ->
  is_download e ->
  (e ∈ out (run lib (Some file) w).2 <->
   (run lib (Some file) w).1 = Ok tt /\
   e = DownloadButton "Download CSV" (list_byte_of_string (to_csv lib df))
         "cleaned_dataset.csv" "text/csv").
Proof.
  intros H He. split.
  - intros Hin. split.
    + rewrite (run_loaded _ _ _ _ H) in *.
      destruct (charts_download_only_when_ok _ _ _ _ _ _ _ Hin He)
        as [Hold|[[] Hok]]; [|done].
      cbn [out] in Hold. page_cases Hold; subst e; done.
    + rewrite (run_loaded _ _ _ _ H) in Hin.
      destruct (charts_download_content lib w df (categorical_cols df)
                  (numeric_cols df) (mkState [df] (loaded_page df)) eq_refl)
        as (_ & (tr & E & F) & _).
      rewrite E in Hin. rewrite Forall_forall in F.
      apply elem_of_app in Hin as [Hin|Hin]; [|by apply F].
      cbn [out] in Hin. page_cases Hin; subst e; done.
  - intros [Hok ->]. by apply download_offers_parsed_table.
Qed.

Lemma download_iff_completed_witness :
  read_csv (sample_lib sales) some_file = Ok sales /\
  is_download (DownloadButton "Download CSV"
                 (list_byte_of_string (to_csv (sample_lib sales) sales))
                 "cleaned_dataset.csv" "text/csv") /\
  DownloadButton "Download CSV"
    (list_byte_of_string (to_csv (sample_lib sales) sales))
    "cleaned_dataset.csv" "text/csv"
    ∈ out (run (sample_lib sales) (Some some_file) first_choices).2.
Proof.
  split; [reflexivity|]. split; [exact I|].
  apply (download_iff_completed (sample_lib sales) some_file first_choices sales
           (DownloadButton "Download CSV"
              (list_byte_of_string (to_csv (sample_lib sales) sales))
              "cleaned_dataset.csv" "text/csv") eq_refl I).
  split; reflexivity.
Defined.

(** ** When no library call fails *)

(** A call whose result is [r] did not raise. *)
Ltac call_ok Hfig df :=
  match goal with
  | H : Raise _ = match build ?lib ?f with _ => _ end |- _ =>
      let E := fresh in
      assert (E : build lib f = None);
      [ apply Hfig; first [left; chart_solve | right; chart_solve]
      | rewrite E in H; discriminate H ]
  | H : ?r = match display ?lib ?f with _ => _ end |- ?r = Ok tt =>
      let E := fresh in
      assert (E : display lib f = None);
      [ apply Hfig; first [left; chart_solve | right; chart_solve]
      | by rewrite E in H ]
  end.

Lemma charts_complete (lib : Lib) (w : Widgets) (df : DataFrame) :
  no_call_fails lib df ->
  spec df (fun e => ~ is_error e)
       (charts lib w 0 (categorical_cols df) (numeric_cols df))
       (fun r => r = Ok tt).
Proof.
  intros (Hvc & Hgs & Hco & Hfig). unfold_sections.
  spec_walk
    ltac:(intros; cbn; tauto)
    ltac:(first
      [ done
      | call_ok Hfig df
      | match goal with
        | H : Raise _ = value_counts _ _ ?c |- _ =>
            let E := fresh in
            destruct (Hvc c) as (? & E & _);
            [ guards; by apply chosen_in | rewrite E in H; discriminate H ]
        | H : Raise _ = groupby_sum _ _ ?x ?y |- _ =>
            let E := fresh in
            destruct (Hgs x y) as (? & E);
            [ guards; by apply chosen_in | guards; by apply chosen_in
            | rewrite E in H; discriminate H ]
        | H : Raise _ = corr _ _ |- _ =>
            let E := fresh in
            destruct Hco as (? & E);
            [ guards; assumption | rewrite E in H; discriminate H ]
        | H : value_counts _ _ ?c = Ok ?a,
          Hne : length _ <> length (columns ?a) |- _ =>
            let E := fresh in let L := fresh in
            destruct (Hvc c) as (? & E & L);
            [ guards; by apply chosen_in
            | rewrite E in H; injection H as <-; cbn in Hne; rewrite L in Hne;
              done ]
        end ])
    (fun r : Result unit => r = Ok tt).
Qed.

(** X18. When no call that a render pass over the parsed table can make
    into the library raises (value counts of its text columns, which come
    as two columns; grouped sums of its numeric columns by its text
    columns; the correlation of its numeric columns; the figures drawn from
    it), every render pass that parses to that table completes: all
    thirteen sections are shown in order, and no error message is on the
    page. Nothing is assumed of the library on other tables, columns or
    figures. *)
Theorem well_behaved_library_completes (lib : Lib) (file : list byte)
    (w : Widgets) (df : DataFrame) :
  no_call_fails lib df ->
  read_csv lib file = Ok df ->
  (run lib (Some file) w).1 = Ok tt /\
  Forall (fun e => ~ is_error e) (out (run lib (Some file) w).2) /\
  titles (out (run lib (Some file) w).2) = section_titles.
Proof.
  intros Hlib H.
  assert (Hok : (run lib (Some file) w).1 = Ok tt /\
                Forall (fun e => ~ is_error e) (out (run lib (Some file) w).2)).
  { rewrite (run_loaded _ _ _ _ H).
    destruct (charts_complete lib w df Hlib (mkState [df] (loaded_page df))
                eq_refl)
      as (_ & (tr & E & F) & Hr).
    split; [done|]. rewrite E. apply Forall_app. split; [|done].
    cbn [out]. unfold loaded_page.
    repeat (apply Forall_cons; split; [cbn; tauto|]). constructor. }
  destruct Hok as [Hr Hf]. split; [done|]. split; [done|].
  destruct (page_sections lib file w df H) as (tr & -> & Ht).
  rewrite Hr in Ht. by rewrite Ht.
Qed.

Lemma well_behaved_library_completes_witness :
  no_call_fails (sample_lib sales) sales /\
  read_csv (sample_lib sales) some_file = Ok sales /\
  (run (sample_lib sales) (Some some_file) first_choices).1 = Ok tt /\
  Forall (fun e => ~ is_error e)
         (out (run (sample_lib sales) (Some some_file) first_choices).2) /\
  titles (out (run (sample_lib sales) (Some some_file) first_choices).2)
  = section_titles.
Proof.
  assert (Hlib : no_call_fails (sample_lib sales) sales).
  { split; [|split; [|split]].
    - intros c Hc. apply list_elem_of_singleton in Hc as ->.
      eexists. split; reflexivity.
    - intros x y _ _. eexists. reflexivity.
    - intros _. eexists. reflexivity.
    - intros f _. split; reflexivity. }
  split; [exact Hlib|]. split; [reflexivity|].
  apply (well_behaved_library_completes (sample_lib sales) some_file
           first_choices sales Hlib eq_refl).
Defined.

(** ** Where exceptions and error messages come from *)

Ltac raised_post :=
  let Heq := fresh "Heq" in
  intros ? Heq;
  first
    [ discriminate Heq
    | match goal with
      | H : _ = Ok _ |- _ => rewrite H in Heq; discriminate Heq
      | H : forall e, _ = Raise e -> raised_by _ _ e |- _ => by apply H
      | H : _ = match display ?lib ?f with _ => _ end |- _ =>
          rewrite H in Heq; destruct (display lib f) eqn:?;
          [injection Heq as <-; do 5 right; eauto | discriminate Heq]
      end
    | injection Heq as <-;
      match goal with
      | H : Raise ?e = value_counts _ _ ?c |- raised_by _ _ ?e =>
          left; exists c; done
      | H : Raise ?e = groupby_sum _ _ ?x ?y |- raised_by _ _ ?e =>
          do 2 right; left; exists x, y; done
      | H : Raise ?e = corr _ _ |- raised_by _ _ ?e =>
          do 3 right; left; done
      | H : Raise ?e = match build ?lib ?f with _ => _ end |- raised_by _ _ ?e =>
          destruct (build lib f) eqn:?;
          [injection H as ->; do 4 right; left; eauto | discriminate H]
      | H : value_counts _ _ ?c = Ok ?a, Hne : length _ <> length (columns ?a)
        |- raised_by _ _ (length_mismatch _ _) =>
          right; left; exists c, a; split; [done|]; split; [|reflexivity];
          intros L; apply Hne; cbn; by rewrite L
      end ].

Ltac error_side :=
  first
    [ intros; exact I
    | match goal with
      | H : forall e, _ = Raise e -> raised_by _ _ e |- error_ok _ _ (Error (_ ++ ?x)) =>
          eexists _, x; split; [reflexivity|]; split;
          [ unfold error_prefixes;
            repeat first [apply list_elem_of_here | apply list_elem_of_further]
          | by apply H ]
      end ].

Lemma charts_errors (lib : Lib) (w : Widgets) (df : DataFrame) :
  spec df (error_ok lib df)
       (charts lib w 0 (categorical_cols df) (numeric_cols df))
       (fun r => forall e, r = Raise e -> raised_by lib df e).
Proof.
  unfold_sections.
  spec_walk
    ltac:(error_side)
    ltac:(raised_post)
    (fun r : Result unit => forall e, r = Raise e -> raised_by lib df e).
Qed.

(** X19. After a successful parse the script adds no failure of its own
    kind: an exception that ends the render pass, and the text quoted by any
    error message on the page, is an exception raised by a value count, a
    grouped sum, the correlation, a chart constructor or a chart display on
    the table as parsed, or the length mismatch of the column assignment
    when value counts do not come as two columns; and every error message
    starts with one of the three texts of the [except] clauses. *)
Theorem exceptions_come_from_library (lib : Lib) (file : list byte)
    (w : Widgets) (df : DataFrame) :
  read_csv lib file = Ok df ->
  (forall e, (run lib (Some file) w).1 = Raise e -> raised_by lib df e) /\
  (forall msg, Error msg ∈ out (run lib (Some file) w).2 ->
     exists prefix x, msg = (prefix ++ x)%string /\
                      prefix ∈ error_prefixes /\ raised_by lib df x).
Proof.
  intros H. rewrite (run_loaded _ _ _ _ H).
  destruct (charts_errors lib w df (mkState [df] (loaded_page df)) eq_refl)
    as (_ & (tr & E & F) & Hr).
  split; [exact Hr|]. intros msg Hin. rewrite E in Hin.
  rewrite Forall_forall in F.
  apply elem_of_app in Hin as [Hin|Hin]; [|exact (F _ Hin)].
  cbn [out] in Hin. page_cases Hin.
Qed.

Lemma exceptions_come_from_library_witness :
  read_csv (sample_lib tally) some_file = Ok tally /\
  Error "Error creating distribution chart: cannot insert count, already exists"
    ∈ out (run (sample_lib tally) (Some some_file)
               (mkWidgets 0 0 0 0 0 0 0 0 1 0)).2 /\
  exists prefix x,
    "Error creating distribution chart: cannot insert count, already exists"
    = (prefix ++ x)%string /\
    prefix ∈ error_prefixes /\ raised_by (sample_lib tally) tally x.
Proof.
  assert (Hin : Error "Error creating distribution chart: cannot insert count, already exists"
                  ∈ out (run (sample_lib tally) (Some some_file)
                             (mkWidgets 0 0 0 0 0 0 0 0 1 0)).2).
  { set (page := out _). vm_compute in page. subst page.
    repeat first [apply list_elem_of_here | apply list_elem_of_further]. }
  split; [reflexivity|]. split; [exact Hin|].
  exact (proj2 (exceptions_come_from_library (sample_lib tally) some_file
                  (mkWidgets 0 0 0 0 0 0 0 0 1 0) tally eq_refl) _ Hin).
Defined.

(** ** Derived tables stay well formed *)

(** X20. The tables the script derives from a well-formed table are well
    formed: the preview, a selection of columns by dtype or by name, and a
    table whose columns were renamed one for one. *)
Theorem derived_tables_well_formed (d : DataFrame) :
  wf_frame d ->
  wf_frame (head d) /\
  (forall include, wf_frame (select_dtypes include d)) /\
  (forall cols, wf_frame (getitem_cols d cols)) /\
  (forall names, length names = length (columns d) ->
                 wf_frame (rename d names)).
Proof.
  unfold wf_frame. intros Hwf. rewrite Forall_forall in Hwf.
  split; [|split; [|split]].
  - unfold head. cbn [columns index_len]. apply Forall_forall. intros c Hc.
    change (map ?f ?l) with (f <$> l) in Hc.
    apply list_elem_of_fmap in Hc as (c0 & -> & Hc0). cbn [values].
    rewrite length_take, (Hwf _ Hc0). done.
  - intros include. unfold select_dtypes. cbn [columns index_len].
    apply Forall_forall. intros c Hc.
    apply list_elem_of_filter in Hc as [_ Hc]. by apply Hwf.
  - intros cols. unfold getitem_cols. cbn [columns index_len].
    apply Forall_forall. intros c Hc. apply list_elem_of_In in Hc.
    apply in_flat_map in Hc as (n & _ & Hc). apply list_elem_of_In in Hc.
    apply list_elem_of_filter in Hc as [_ Hc]. by apply Hwf.
  - intros names E. unfold rename. cbn [columns index_len].
    apply Forall_forall. intros c Hc.
    apply list_elem_of_lookup in Hc as (i & Hi).
    apply lookup_zip_with_Some in Hi as (n & c0 & -> & _ & Hc0). cbn [values].
    apply Hwf. by eapply list_elem_of_lookup_2.
Qed.

Lemma derived_tables_well_formed_witness :
  wf_frame sales /\ wf_frame (head sales) /\
  wf_frame (getitem_cols sales (numeric_cols sales)).
Proof.
  assert (Hwf : wf_frame sales) by (repeat constructor).
  destruct (derived_tables_well_formed sales Hwf) as (Hh & _ & Hg & _).
  split; [exact Hwf|]. split; [exact Hh | apply Hg].
Defined.
